(** * A flat-file package tracker: the record store of [server.js]

    The server keeps every product record in one JSON document,
    [products.json], and the package images in the directory [uploads/].
    Each route handler loads the whole collection, changes it in memory and
    writes the whole collection back.  This development embeds the handlers
    as functions on an explicit file-system state and proves the properties
    of the persistence layer against them. *)

From Stdlib Require Import Ascii String.
From stdpp Require Import base option list strings gmap pretty.

Open Scope string_scope.

(** ** JavaScript values

    A field of [req.body] is whatever the body parsers leave there:
    [express.json] gives any JSON value, multer gives a string, or an array
    of strings for a repeated field, and a field the request omits reads
    as [undefined].  Values are over the runtime's type of numbers. *)

#[local] Unset Elimination Schemes.

Inductive jsval {number : Type} :=
  | JUndefined
  | JNull
  | JBool (b : bool)
  | JNum (x : number)
  | JStr (s : string)
  | JArr (elems : list jsval)
  | JObj (fields : list (string * jsval)).

#[local] Set Elimination Schemes.

Arguments jsval : clear implicits.

Definition path := list string.

(** ** The JavaScript runtime

    What the handlers use of the runtime and cannot be read off [server.js]
    is collected in one interface over the type of numbers:
    [Number.parseFloat] (of any value, through its string form); the effect
    of a [JSON.stringify]/[JSON.parse] round trip on a number ([NaN] and
    the infinities come back as [null], written [None]), which a second
    round trip does not change; which numbers are truthy (all but the
    zeros and [NaN]); [===] on numbers; the directory the script lives in
    and the working directory of the process. *)

Class Runtime (number : Type) := {
  parseFloat : jsval number → number;
  jsonNumber : number → option number;
  numberTruthy : number → bool;
  numberEq : number → number → bool;
  __dirname : path;
  cwd : path;
  jsonNumber_stable : ∀ x y, jsonNumber x = Some y → jsonNumber y = Some y;
}.

(** ** Paths

    A path is the list of its components below the root.  [path_join d p]
    is [path.join(d, p)] for a normalised absolute [d]: the components of
    [p] are walked in order, [""] and ["."] are skipped and [".."] drops the
    last component (the root is its own parent). *)

Fixpoint split_slash (s : string) : list string :=
  match s with
  | EmptyString => [""]
  | String c r =>
      if Ascii.eqb c "/"%char then "" :: split_slash r
      else match split_slash r with
           | [] => [String c ""]
           | seg :: segs => String c seg :: segs
           end
  end.

Fixpoint resolve (stack : list string) (segs : list string) : path :=
  match segs with
  | [] => rev stack
  | seg :: rest =>
      if String.eqb seg "" || String.eqb seg "." then resolve stack rest
      else if String.eqb seg ".." then resolve (tail stack) rest
      else resolve (seg :: stack) rest
  end.

Definition path_join (d : path) (p : string) : path :=
  resolve (rev d) (split_slash p).

(** [path.join] keeps a trailing separator; the system calls then accept
    the path for a directory only. *)
Definition trailing_slash (p : string) : bool :=
  match String.rev p with
  | String c _ => Ascii.eqb c "/"%char
  | EmptyString => false
  end.

(** [path.extname]: the part of the last component from its last dot on,
    empty when there is no dot, when the only dot leads the component, and
    for the component [".."]. *)

Fixpoint drop_slashes (l : list Ascii.ascii) : list Ascii.ascii :=
  match l with
  | c :: r => if Ascii.eqb c "/"%char then drop_slashes r else l
  | [] => []
  end.

Fixpoint take_component (l : list Ascii.ascii) : list Ascii.ascii :=
  match l with
  | c :: r => if Ascii.eqb c "/"%char then [] else c :: take_component r
  | [] => []
  end.

Fixpoint upto_dot (l : list Ascii.ascii) : option (list Ascii.ascii) :=
  match l with
  | c :: r => if Ascii.eqb c "."%char then Some [c] else (c ::.) <$> upto_dot r
  | [] => None
  end.

Definition extname (p : string) : string :=
  let base := take_component (drop_slashes (rev (String.list_ascii_of_string p))) in
  match upto_dot base with
  | Some ext =>
      if Nat.eqb (length ext) (length base) then ""
      else if String.eqb (String.string_of_list_ascii (rev base)) ".." then ""
      else String.string_of_list_ascii (rev ext)
  | None => ""
  end.

(** The file name the multipart parser hands on: what follows the last
    slash or backslash of the name the client sent, and nothing for the
    names ["."] and [".."]. *)

Fixpoint take_name (l : list Ascii.ascii) : list Ascii.ascii :=
  match l with
  | c :: r =>
      if Ascii.eqb c "/"%char || Ascii.eqb c "\"%char then [] else c :: take_name r
  | [] => []
  end.

Definition basename (p : string) : string :=
  let name :=
    String.string_of_list_ascii
      (rev (take_name (rev (String.list_ascii_of_string p)))) in
  if String.eqb name "." || String.eqb name ".." then "" else name.

Section Server.

Context {number : Type} {rt : Runtime number}.

Abbreviation value := (jsval number).

(** ** Truthiness, [||] and [===]

    The falsy values are [undefined], [null], [false], the zeros, [NaN]
    and the empty string. *)

Definition truthy (v : value) : bool :=
  match v with
  | JUndefined | JNull => false
  | JBool b => b
  | JNum x => numberTruthy x
  | JStr s => negb (String.eqb s "")
  | JArr _ | JObj _ => true
  end.

(** [a || b] *)
Definition js_or (a b : value) : value :=
  if truthy a then a else b.

(** [a === b] for two values that come from different parses (a stored
    record and a request, or a request and a literal): an array or an
    object is equal to itself only, so never to the other operand. *)
Definition strict_eq (a b : value) : bool :=
  match a, b with
  | JUndefined, JUndefined => true
  | JNull, JNull => true
  | JBool x, JBool y => Bool.eqb x y
  | JNum x, JNum y => numberEq x y
  | JStr x, JStr y => String.eqb x y
  | _, _ => false
  end.

(** ** The JSON round trip

    [JSON.parse (JSON.stringify v)] for a value in a property position: a
    number goes through [jsonNumber], inside an array [undefined] becomes
    [null], and a property whose value is [undefined] is left out. *)

Fixpoint json_val (v : value) : value :=
  match v with
  | JNum x =>
      match jsonNumber x with
      | Some y => JNum y
      | None => JNull
      end
  | JArr elems =>
      JArr (map (λ x, match json_val x with
                      | JUndefined => JNull
                      | y => y
                      end) elems)
  | JObj fields =>
      JObj (omap (λ kx, match json_val kx.2 with
                        | JUndefined => None
                        | y => Some (kx.1, y)
                        end) fields)
  | _ => v
  end.

(** ** Product records

    The fields of a record, as the insert handler lays them out.  The
    fields taken from the request hold whatever value the request carried
    ([undefined] for an omitted field, which [JSON.stringify] leaves out);
    the events, the creation time and the flag are built by the server. *)

Record event := {
  description : string;
  timestamp : string;
  location : string;
  completed : bool;
}.

Record product := {
  trackingNumber : value;
  recipientName : value;
  recipientAddress : value;
  senderName : value;
  weight : value;
  serviceType : value;
  status : value;
  estimatedDelivery : value;
  packageImage : value;
  events : list event;
  createdAt : string;
  isGlobal : bool;
}.

(** What [JSON.parse (JSON.stringify p)] gives back for a record. *)
Definition json_product (p : product) : product :=
  {| trackingNumber := json_val (trackingNumber p);
     recipientName := json_val (recipientName p);
     recipientAddress := json_val (recipientAddress p);
     senderName := json_val (senderName p);
     weight := json_val (weight p);
     serviceType := json_val (serviceType p);
     status := json_val (status p);
     estimatedDelivery := json_val (estimatedDelivery p);
     packageImage := json_val (packageImage p);
     events := events p;
     createdAt := createdAt p;
     isGlobal := isGlobal p |}.

(** ** The file system

    A file holds either the text [JSON.stringify] produces for an array of
    records, written [Json ps] for the array [ps] it was produced from, or
    bytes that [JSON.parse] rejects (an image, a document cut short). *)

Inductive content :=
  | Blob (bytes : string)
  | Json (ps : list product).

Inductive node :=
  | Dir
  | File (c : content).

Abbreviation filesystem := (gmap path node).

Definition existsSync (p : path) (slash : bool) (fs : filesystem) : bool :=
  match fs !! p with
  | Some Dir => true
  | Some (File _) => negb slash
  | None => false
  end.

(** [fs.unlinkSync] removes a regular file and throws ([None]) on a
    directory or a missing file. *)
Definition unlinkSync (p : path) (slash : bool) (fs : filesystem) : option filesystem :=
  match fs !! p with
  | Some (File _) => if slash then None else Some (delete p fs)
  | _ => None
  end.

(** What the medium does with a write: take it; refuse it when the file is
    opened, which leaves the file as it was; fail after the file was
    opened, which has truncated it, with [written] the part of the new text
    that reached it (a proper part of the text of an array does not
    parse); or fail when the file is closed, after the whole text reached
    it. *)
Inductive medium :=
  | Accepts
  | Refuses
  | Breaks (written : string)
  | FailsAtClose.

(** [fs.writeFileSync]: the new disk, and whether the call returned
    ([true]) or threw.  A directory at the path makes the open fail. *)
Definition writeFileSync (m : medium) (p : path) (c : content) (fs : filesystem)
  : filesystem * bool :=
  match fs !! p with
  | Some Dir => (fs, false)
  | _ =>
      match m with
      | Accepts => (<[p := File c]> fs, true)
      | Refuses => (fs, false)
      | Breaks written => (<[p := File (Blob written)]> fs, false)
      | FailsAtClose => (<[p := File c]> fs, false)
      end
  end.

Definition uploadsDir : path := path_join __dirname "uploads".
Definition productsFile : path := path_join __dirname "products.json".

(** What a request cannot determine: the random number and the two clock
    readings of an insert, and what the medium does with the write. *)
Record env := {
  random : string;
  event_time : string;
  created_time : string;
  disk : medium;
}.

(** ** Helper functions of the server

    [readProducts] catches whatever [readFileSync] or [JSON.parse] throws
    (a missing file, a directory, bytes that do not parse) and gives the
    empty array; otherwise it gives the parsed document.  The server
    writes arrays only; a document that parses to something else is
    outside this model.  [writeProducts] catches the error of the write
    and reports it as [false]. *)

Definition readProducts (fs : filesystem) : list product :=
  match fs !! productsFile with
  | Some (File (Json ps)) => json_product <$> ps
  | _ => []
  end.

Definition writeProducts (e : env) (products : list product) (fs : filesystem)
  : filesystem * bool :=
  writeFileSync (disk e) productsFile (Json products) fs.

(** ** Requests and responses

    [req.body] is the object the body parsers leave; [req.file] is built by
    the upload middleware from the file part named [packageImage] of the
    request, given here with the name as it was sent and the type as the
    multipart parser reads it. *)

Record form := {
  body_trackingNumber : value;
  body_recipientName : value;
  body_recipientAddress : value;
  body_senderName : value;
  body_weight : value;
  body_serviceType : value;
  body_status : value;
  body_estimatedDelivery : value;
  body_imageUrl : value;
}.

Record file := {
  originalname : string;
  mimetype : string;
  buffer : string;
}.

Record request := {
  req_body : form;
  req_file : option file;
}.

(** A response is the status and the value the handler hands to
    [res.json], before the framework serialises it; [ErrorPage] is the
    framework's own answer to an error of the middleware or to a request
    no route takes. *)
Inductive payload :=
  | Products (ps : list product)
  | Product (p : product)
  | Message (m : string)
  | Error (m : string)
  | ErrorPage (m : string).

Record response := {
  res_status : nat;
  res_json : payload;
}.

(** ** The upload middleware

    [filename] and [fileFilter] are the callbacks [server.js] hands to
    multer; [upload_single] is multer's [single] around them.  The file
    object carries the name the multipart parser hands on ([received]); a
    part without such a name is no file and the handler runs without one.
    Otherwise: filter, name, open the target in the destination
    ["uploads/"], which is relative to the working directory and must be
    a directory there, write, and on a payload that reaches the limit
    remove what was written and fail.  The medium is taken to store the
    bytes of an upload it has opened a file for.  An error is given by
    its message, an error of the file system by its code. *)

Definition received (sent : file) : file :=
  {| originalname := basename (originalname sent);
     mimetype := mimetype sent;
     buffer := buffer sent |}.

Definition filename (f : file) (fs : filesystem) : string :=
  let products := readProducts fs in
  let imageNumber := length products + 1 in
  let extension := extname (originalname f) in
  "image" +:+ pretty imageNumber +:+ extension.

Definition fileFilter (f : file) : bool :=
  String.prefix "image/" (mimetype f).

Definition fileSize : N := 5 * 1024 * 1024.

Definition destination : path := path_join cwd "uploads/".

Definition upload_single (f : option file) (fs : filesystem)
  : filesystem * (string + option string) :=
  match f with
  | None => (fs, inr None)
  | Some sent =>
      let f := received sent in
      if String.eqb (originalname f) "" then (fs, inr None)
      else if fileFilter f then
        let name := filename f fs in
        let target := (destination ++ [name])%list in
        match fs !! destination with
        | Some Dir =>
            match fs !! target with
            | Some Dir => (fs, inl "EISDIR")
            | _ =>
                if (N.of_nat (String.length (buffer f)) <? fileSize)%N
                then (<[target := File (Blob (buffer f))]> fs, inr (Some name))
                else (delete target fs, inl "File too large")
            end
        | Some (File _) => (fs, inl "ENOTDIR")
        | None => (fs, inl "ENOENT")
        end
      else (fs, inl "Only image files are allowed!")
  end.

(** ** Route handlers *)

(** The test [p.trackingNumber === k] of [find] and [findIndex];
    [list_find] gives the first match with its index. *)
Definition has_key (k : value) (p : product) : Prop :=
  strict_eq (trackingNumber p) k = true.

#[global] Instance has_key_dec k p : Decision (has_key k p).
Proof. unfold has_key. apply _. Defined.

Definition respond (fs : filesystem) (code : nat) (j : payload)
  : filesystem * response :=
  (fs, {| res_status := code; res_json := j |}).

(** [GET /api/products] *)
Definition get_products (fs : filesystem) : filesystem * response :=
  let products := readProducts fs in
  respond fs 200 (Products products).

(** [GET /api/products/:trackingNumber]; the parameter is a string. *)
Definition get_product (key : string) (fs : filesystem) : filesystem * response :=
  let products := readProducts fs in
  match list_find (has_key (JStr key)) products with
  | Some (_, product) => respond fs 200 (Product product)
  | None => respond fs 404 (Error "Product not found")
  end.

Definition default_image : string :=
  "https://images.unsplash.com/photo-1558618666-fcd25c85cd64?w=200&h=200&fit=crop&crop=center".

(** The body of [POST /api/products], run after the upload middleware
    with [stored] the name the upload was stored under, if any. *)
Definition post_handler (e : env) (body : form) (stored : option string)
    (fs : filesystem) : filesystem * response :=
  let products := readProducts fs in
  let productData :=
    {| trackingNumber :=
         js_or (body_trackingNumber body) (JStr (String.substring 2 10 (random e)));
       recipientName := body_recipientName body;
       recipientAddress := body_recipientAddress body;
       senderName := body_senderName body;
       weight := JNum (parseFloat (body_weight body));
       serviceType := body_serviceType body;
       status := body_status body;
       estimatedDelivery := body_estimatedDelivery body;
       packageImage :=
         match stored with
         | Some name => JStr ("/uploads/" +:+ name)
         | None => js_or (body_imageUrl body) (JStr default_image)
         end;
       events :=
         [ {| description := "Package created";
              timestamp := event_time e;
              location := "Origin facility";
              completed := true |} ];
       createdAt := created_time e;
       isGlobal := false |} in
  match list_find (has_key (trackingNumber productData)) products with
  | Some _ => respond fs 400 (Error "Tracking number already exists")
  | None =>
      let products := (products ++ [productData])%list in
      match writeProducts e products fs with
      | (fs', true) => respond fs' 201 (Product productData)
      | (fs', false) => respond fs' 500 (Error "Failed to save product")
      end
  end.

(** The body of [PUT /api/products/:trackingNumber]. *)
Definition put_handler (e : env) (key : string) (body : form)
    (stored : option string) (fs : filesystem) : filesystem * response :=
  let products := readProducts fs in
  match list_find (has_key (JStr key)) products with
  | None => respond fs 404 (Error "Product not found")
  | Some (index, old) =>
      let updatedProduct :=
        {| trackingNumber := trackingNumber old;
           recipientName := js_or (body_recipientName body) (recipientName old);
           recipientAddress := js_or (body_recipientAddress body) (recipientAddress old);
           senderName := js_or (body_senderName body) (senderName old);
           weight :=
             if truthy (body_weight body)
             then JNum (parseFloat (body_weight body))
             else weight old;
           serviceType := js_or (body_serviceType body) (serviceType old);
           status := js_or (body_status body) (status old);
           estimatedDelivery := js_or (body_estimatedDelivery body) (estimatedDelivery old);
           packageImage :=
             match stored with
             | Some name => JStr ("/uploads/" +:+ name)
             | None => js_or (body_imageUrl body) (packageImage old)
             end;
           events := events old;
           createdAt := createdAt old;
           isGlobal := isGlobal old |} in
      let products := <[index := updatedProduct]> products in
      match writeProducts e products fs with
      | (fs', true) => respond fs' 200 (Product updatedProduct)
      | (fs', false) => respond fs' 500 (Error "Failed to update product")
      end
  end.

(** The asset cleanup inside the delete handler: [None] when it throws,
    which [unlinkSync] does on a directory, and the call of [startsWith]
    does on a truthy value that is no string. *)
Definition cleanup_image (deletedProduct : product) (fs : filesystem)
  : option filesystem :=
  if truthy (packageImage deletedProduct) then
    match packageImage deletedProduct with
    | JStr image =>
        if String.prefix "/uploads/" image then
          let imagePath := path_join __dirname image in
          let slash := trailing_slash image in
          if existsSync imagePath slash fs then unlinkSync imagePath slash fs
          else Some fs
        else Some fs
    | _ => None
    end
  else Some fs.

(** [DELETE /api/products/:trackingNumber] *)
Definition delete_handler (e : env) (key : string) (fs : filesystem)
  : filesystem * response :=
  let products := readProducts fs in
  match list_find (has_key (JStr key)) products with
  | None => respond fs 404 (Error "Product not found")
  | Some (index, deletedProduct) =>
      let products := delete index products in
      match cleanup_image deletedProduct fs with
      | None => respond fs 500 (Error "Internal server error")
      | Some fs1 =>
          match writeProducts e products fs1 with
          | (fs', true) => respond fs' 200 (Message "Product deleted successfully")
          | (fs', false) => respond fs' 500 (Error "Failed to delete product")
          end
      end
  end.

(** A route with the upload middleware in front of its handler; an error
    of the middleware goes to the framework's error page. *)
Definition with_upload (req : request)
    (handler : form → option string → filesystem → filesystem * response)
    (fs : filesystem) : filesystem * response :=
  match upload_single (req_file req) fs with
  | (fs1, inl err) => respond fs1 500 (ErrorPage err)
  | (fs1, inr stored) => handler (req_body req) stored fs1
  end.

Definition route_post (e : env) (req : request) : filesystem → filesystem * response :=
  with_upload req (post_handler e).

Definition route_put (e : env) (key : string) (req : request)
  : filesystem → filesystem * response :=
  with_upload req (put_handler e key).

(** What the script does before it listens: create [uploads/] and an empty
    [products.json] where they are missing.  This is the start on a
    medium that takes both; where it does not, the script ends before it
    listens. *)
Definition startup (fs : filesystem) : filesystem :=
  let fs1 := if existsSync uploadsDir false fs then fs else <[uploadsDir := Dir]> fs in
  if existsSync productsFile false fs1 then fs1
  else <[productsFile := File (Json [])]> fs1.


(** The keys of the stored collection, in order. *)
Definition keys (fs : filesystem) : list value :=
  trackingNumber <$> readProducts fs.

(** A value that is a string; a request whose key is one, or is falsy so
    that the key is generated. *)
Definition is_string (v : value) : Prop := ∃ s, v = JStr s.

Definition string_keyed (er : env * request) : Prop :=
  is_string (body_trackingNumber (req_body er.2))
  ∨ truthy (body_trackingNumber (req_body er.2)) = false.

(** ** The merge of an update, in the specification's words

    "For each provided field, overwrite; for each omitted field, retain the
    prior value": a field is provided when the payload carries it, whatever
    its value.  The key, the events, the creation time and the global flag
    have no mutator. *)

Definition provided_or (provided prior : value) : value :=
  match provided with
  | JUndefined => prior
  | v => v
  end.

Definition merge_as_specified (body : form) (stored : option string) (old : product)
  : product :=
  {| trackingNumber := trackingNumber old;
     recipientName := provided_or (body_recipientName body) (recipientName old);
     recipientAddress := provided_or (body_recipientAddress body) (recipientAddress old);
     senderName := provided_or (body_senderName body) (senderName old);
     weight :=
       match body_weight body with
       | JUndefined => weight old
       | w => JNum (parseFloat w)
       end;
     serviceType := provided_or (body_serviceType body) (serviceType old);
     status := provided_or (body_status body) (status old);
     estimatedDelivery := provided_or (body_estimatedDelivery body) (estimatedDelivery old);
     packageImage :=
       match stored with
       | Some name => JStr ("/uploads/" +:+ name)
       | None => provided_or (body_imageUrl body) (packageImage old)
       end;
     events := events old;
     createdAt := createdAt old;
     isGlobal := isGlobal old |}.

(** A payload with its falsy fields taken out. *)
Definition drop_falsy (v : value) : value :=
  if truthy v then v else JUndefined.

Definition without_falsy (body : form) : form :=
  {| body_trackingNumber := drop_falsy (body_trackingNumber body);
     body_recipientName := drop_falsy (body_recipientName body);
     body_recipientAddress := drop_falsy (body_recipientAddress body);
     body_senderName := drop_falsy (body_senderName body);
     body_weight := drop_falsy (body_weight body);
     body_serviceType := drop_falsy (body_serviceType body);
     body_status := drop_falsy (body_status body);
     body_estimatedDelivery := drop_falsy (body_estimatedDelivery body);
     body_imageUrl := drop_falsy (body_imageUrl body) |}.

(** A record with another status. *)
Definition set_status (v : value) (old : product) : product :=
  {| trackingNumber := trackingNumber old;
     recipientName := recipientName old;
     recipientAddress := recipientAddress old;
     senderName := senderName old;
     weight := weight old;
     serviceType := serviceType old;
     status := v;
     estimatedDelivery := estimatedDelivery old;
     packageImage := packageImage old;
     events := events old;
     createdAt := createdAt old;
     isGlobal := isGlobal old |}.

(** A regular file is at a path. *)
Definition is_file (p : path) (fs : filesystem) : Prop :=
  ∃ c, fs !! p = Some (File c).

(** The backing document cannot be read (missing, or a directory) or
    cannot be parsed. *)
Definition read_fault (fs : filesystem) : Prop :=
  fs !! productsFile = None ∨ fs !! productsFile = Some Dir
  ∨ ∃ bytes, fs !! productsFile = Some (File (Blob bytes)).

(** ** The routing table

    One request to one of the five routes of the script, and a run of
    requests in the order they are served.  A path that ends after
    ["/api/products/"] has no parameter: on GET it is the listing, and no
    route takes it on PUT or DELETE. *)

Inductive call :=
  | GetProducts
  | GetProduct (key : string)
  | PostProduct (e : env) (req : request)
  | PutProduct (e : env) (key : string) (req : request)
  | DeleteProduct (e : env) (key : string).

Definition dispatch (c : call) (fs : filesystem) : filesystem * response :=
  match c with
  | GetProducts => get_products fs
  | GetProduct key =>
      if String.eqb key "" then get_products fs else get_product key fs
  | PostProduct e req => route_post e req fs
  | PutProduct e key req =>
      if String.eqb key "" then respond fs 404 (ErrorPage "Cannot PUT /api/products/")
      else route_put e key req fs
  | DeleteProduct e key =>
      if String.eqb key "" then respond fs 404 (ErrorPage "Cannot DELETE /api/products/")
      else delete_handler e key fs
  end.

Definition run (cs : list call) (fs : filesystem) : filesystem :=
  foldl (λ fs c, (dispatch c fs).1) fs cs.

(** A call whose insert, if it is one, is keyed by a string. *)
Definition string_keyed_call (c : call) : Prop :=
  match c with
  | PostProduct e req => string_keyed (e, req)
  | _ => True
  end.

End Server.

Arguments product : clear implicits.
Arguments content : clear implicits.
Arguments node : clear implicits.
Arguments form : clear implicits.
Arguments request : clear implicits.
Arguments payload : clear implicits.
Arguments response : clear implicits.
Arguments call : clear implicits.

Abbreviation filesystem number := (gmap path (node number)).

(** ** A runtime to compute the examples with

    Numbers are exact decimals [m * 10^e], with [NaN] and the infinities
    beside them.  This is not the arithmetic of the engine: there the
    value read is rounded to binary64, and a literal too large for it
    reads as an infinity.  [decimal_parseFloat] reads, after leading
    white space, the longest prefix of a string that is a decimal literal,
    and gives [NaN] when there is none; an array reads as its first
    element, which is what its string form begins with. *)

Inductive decimal :=
  | NaN
  | Infinity (neg : bool)
  | Fin (m : Z) (e : Z).

Definition digit (c : ascii) : option Z :=
  let n := Z.of_N (N_of_ascii c) in
  if (48 <=? n)%Z && (n <=? 57)%Z then Some (n - 48)%Z else None.

(** Reads a run of digits onto [acc]; returns the value, the number of
    digits read and the rest of the string. *)
Fixpoint read_digits (acc : Z) (count : nat) (s : string) : Z * nat * string :=
  match s with
  | String c r =>
      match digit c with
      | Some d => read_digits (10 * acc + d)%Z (S count) r
      | None => (acc, count, s)
      end
  | EmptyString => (acc, count, s)
  end.

(** Tab, line feed, vertical tab, form feed, carriage return, space. *)
Definition white_space (c : ascii) : bool :=
  let n := N_of_ascii c in
  ((9 <=? n)%N && (n <=? 13)%N) || (n =? 32)%N.

Fixpoint skip_spaces (s : string) : string :=
  match s with
  | String c r => if white_space c then skip_spaces r else s
  | EmptyString => s
  end.

Definition read_sign (s : string) : bool * string :=
  match s with
  | String c r =>
      if Ascii.eqb c "-"%char then (true, r)
      else if Ascii.eqb c "+"%char then (false, r)
      else (false, s)
  | EmptyString => (false, s)
  end.

Definition read_exponent (s : string) : Z :=
  match s with
  | String c r =>
      if Ascii.eqb c "e"%char || Ascii.eqb c "E"%char then
        let '(neg, r1) := read_sign r in
        let '(x, n, _) := read_digits 0 0 r1 in
        match n with
        | O => 0%Z
        | S _ => if neg then (- x)%Z else x
        end
      else 0%Z
  | EmptyString => 0%Z
  end.

Fixpoint strip_zeros (fuel : nat) (m e : Z) : Z * Z :=
  match fuel with
  | O => (m, e)
  | S fuel' =>
      if (m =? 0)%Z then (0%Z, 0%Z)
      else if (m mod 10 =? 0)%Z then strip_zeros fuel' (m / 10)%Z (e + 1)%Z
      else (m, e)
  end.

Definition read_decimal (s : string) : decimal :=
  let '(neg, s1) := read_sign (skip_spaces s) in
  if String.prefix "Infinity" s1 then Infinity neg
  else
    let '(i, ni, s2) := read_digits 0 0 s1 in
    let '(m, nf, s3) :=
      match s2 with
      | String c r => if Ascii.eqb c "."%char then read_digits i 0 r else (i, O, s2)
      | EmptyString => (i, O, s2)
      end in
    match (ni + nf)%nat with
    | O => NaN
    | S _ =>
        let '(m', e') :=
          strip_zeros (S (ni + nf)) m (read_exponent s3 - Z.of_nat nf)%Z in
        Fin (if neg then (- m')%Z else m') e'
    end.

Fixpoint decimal_parseFloat (v : jsval decimal) : decimal :=
  match v with
  | JStr s => read_decimal s
  | JNum x => x
  | JArr (x :: _) => decimal_parseFloat x
  | _ => NaN
  end.

Definition decimal_jsonNumber (x : decimal) : option decimal :=
  match x with
  | Fin m e => Some (Fin m e)
  | _ => None
  end.

Definition decimal_truthy (x : decimal) : bool :=
  match x with
  | NaN => false
  | Infinity _ => true
  | Fin m _ => negb (m =? 0)%Z
  end.

Definition decimal_eq (x y : decimal) : bool :=
  match x, y with
  | Infinity a, Infinity b => Bool.eqb a b
  | Fin m e, Fin m' e' => (m =? m')%Z && (e =? e')%Z
  | _, _ => false
  end.

Definition decimal_runtime : Runtime decimal.
Proof.
  refine {| parseFloat := decimal_parseFloat;
            jsonNumber := decimal_jsonNumber;
            numberTruthy := decimal_truthy;
            numberEq := decimal_eq;
            __dirname := ["srv"; "fedex"];
            cwd := ["srv"; "fedex"] |}.
  intros x y. destruct x; simpl; intros [= <-]; reflexivity.
Defined.

(** The same runtime, started in another directory than the script's. *)
Definition elsewhere_runtime : Runtime decimal.
Proof.
  refine {| parseFloat := decimal_parseFloat;
            jsonNumber := decimal_jsonNumber;
            numberTruthy := decimal_truthy;
            numberEq := decimal_eq;
            __dirname := ["srv"; "fedex"];
            cwd := ["home"; "app"] |}.
  intros x y. destruct x; simpl; intros [= <-]; reflexivity.
Defined.

(** ** Sample requests and disks *)

Definition empty_form {number : Type} : form number :=
  {| body_trackingNumber := JUndefined; body_recipientName := JUndefined;
     body_recipientAddress := JUndefined; body_senderName := JUndefined;
     body_weight := JUndefined; body_serviceType := JUndefined;
     body_status := JUndefined; body_estimatedDelivery := JUndefined;
     body_imageUrl := JUndefined |}.

(** The form of the first concrete scenario, without a tracking number. *)
Definition scenario_form {number : Type} : form number :=
  {| body_trackingNumber := JUndefined; body_recipientName := JStr "A";
     body_recipientAddress := JStr "addr"; body_senderName := JStr "S";
     body_weight := JStr "2.5"; body_serviceType := JStr "standard";
     body_status := JStr "created"; body_estimatedDelivery := JStr "2025-01-01";
     body_imageUrl := JUndefined |}.

Definition with_key {number : Type} (k : jsval number) (f : form number)
  : form number :=
  {| body_trackingNumber := k; body_recipientName := body_recipientName f;
     body_recipientAddress := body_recipientAddress f;
     body_senderName := body_senderName f; body_weight := body_weight f;
     body_serviceType := body_serviceType f; body_status := body_status f;
     body_estimatedDelivery := body_estimatedDelivery f;
     body_imageUrl := body_imageUrl f |}.

Definition with_imageUrl {number : Type} (u : jsval number) (f : form number)
  : form number :=
  {| body_trackingNumber := body_trackingNumber f;
     body_recipientName := body_recipientName f;
     body_recipientAddress := body_recipientAddress f;
     body_senderName := body_senderName f; body_weight := body_weight f;
     body_serviceType := body_serviceType f; body_status := body_status f;
     body_estimatedDelivery := body_estimatedDelivery f;
     body_imageUrl := u |}.

Definition status_only {number : Type} (v : jsval number) : form number :=
  {| body_trackingNumber := JUndefined; body_recipientName := JUndefined;
     body_recipientAddress := JUndefined; body_senderName := JUndefined;
     body_weight := JUndefined; body_serviceType := JUndefined; body_status := v;
     body_estimatedDelivery := JUndefined; body_imageUrl := JUndefined |}.


Definition env0 : env :=
  {| random := "0.8274610395127";
     event_time := "2025-01-01T10:00:00.000Z";
     created_time := "2025-01-01T10:00:00.001Z";
     disk := Accepts |}.

(** The medium refuses the write, fails after it opened the file, or fails
    when it closes the file. *)
Definition env_fault : env :=
  {| random := random env0; event_time := event_time env0;
     created_time := created_time env0; disk := Refuses |}.

Definition env_break : env :=
  {| random := random env0; event_time := event_time env0;
     created_time := created_time env0; disk := Breaks "[" |}.

Definition env_close : env :=
  {| random := random env0; event_time := event_time env0;
     created_time := created_time env0; disk := FailsAtClose |}.

Definition png : file :=
  {| originalname := "parcel.png"; mimetype := "image/png"; buffer := "PNG-bytes" |}.

#[local] Existing Instance decimal_runtime.

(** A fresh disk after start-up. *)
Definition disk0 : filesystem decimal := startup ∅.

(** [disk0] after inserting ["TN1"] with an uploaded image. *)
Definition disk1 : filesystem decimal :=
  (route_post env0
     {| req_body := with_key (JStr "TN1") scenario_form; req_file := Some png |}
     disk0).1.

(** The record of ["TN1"] in [disk1] and the file of its image. *)
Definition tn1 : product decimal :=
  {| trackingNumber := JStr "TN1";
     recipientName := JStr "A";
     recipientAddress := JStr "addr";
     senderName := JStr "S";
     weight := JNum (Fin 25 (-1));
     serviceType := JStr "standard";
     status := JStr "created";
     estimatedDelivery := JStr "2025-01-01";
     packageImage := JStr "/uploads/image1.png";
     events :=
       [ {| description := "Package created";
            timestamp := "2025-01-01T10:00:00.000Z";
            location := "Origin facility";
            completed := true |} ];
     createdAt := "2025-01-01T10:00:00.001Z";
     isGlobal := false |}.

Definition image1 : path := ["srv"; "fedex"; "uploads"; "image1.png"].

(** A disk that also holds the script, and a record whose image reference
    starts with the managed prefix and climbs out of the directory. *)
Definition server_js : path := ["srv"; "fedex"; "server.js"].

Definition disk_script : filesystem decimal :=
  <[server_js := File (Blob "const express = require('express')")]> disk0.

Definition disk_climb : filesystem decimal :=
  (route_post env0
     {| req_body := with_imageUrl (JStr "/uploads/../server.js")
                      (with_key (JStr "TN9") scenario_form);
        req_file := None |}
     disk_script).1.

(** A record whose image reference is the managed directory itself. *)
Definition disk_dir : filesystem decimal :=
  (route_post env0
     {| req_body := with_imageUrl (JStr "/uploads/") (with_key (JStr "TN8") scenario_form);
        req_file := None |}
     disk0).1.

(** A disk whose [products.json] is cut short. *)
Definition disk_corrupt : filesystem decimal :=
  <[ ["srv"; "fedex"; "products.json"] := File (Blob "[{") ]> disk1.

(** More requests and disks for the examples. *)
Definition req_plain : request decimal :=
  {| req_body := scenario_form; req_file := None |}.

Definition req_tn1_png : request decimal :=
  {| req_body := with_key (JStr "TN1") scenario_form; req_file := Some png |}.

Definition req_delivered : request decimal :=
  {| req_body := status_only (JStr "delivered"); req_file := None |}.

Definition req_png : request decimal :=
  {| req_body := empty_form; req_file := Some png |}.

Definition png2 : file :=
  {| originalname := "other.png"; mimetype := "image/png"; buffer := "PNG-other" |}.


Definition pdf : file :=
  {| originalname := "label.pdf"; mimetype := "application/pdf"; buffer := "%PDF" |}.

Definition req_pdf : request decimal :=
  {| req_body := scenario_form; req_file := Some pdf |}.

(** A record with the placeholder image. *)
Definition disk_placeholder : filesystem decimal :=
  (route_post env0
     {| req_body := with_key (JStr "TN3") scenario_form; req_file := None |}
     disk0).1.

(** A request whose key is an array, as a JSON body or a repeated
    multipart field gives it. *)
Definition array_key : jsval decimal := JArr [JStr "TN1"].


(** [disk1] after an update of ["TN1"] that uploaded an image. *)
Definition disk2 : filesystem decimal :=
  (route_put env0 "TN1" req_png disk1).1.


(** An image of eight million bytes, over the limit. *)
Fixpoint doubled (k : nat) (s : string) : string :=
  match k with
  | 0 => s
  | S k => doubled k (s +:+ s)
  end.

Definition big : file :=
  {| originalname := "big.png"; mimetype := "image/png"; buffer := doubled 23 "x" |}.

Definition req_big : request decimal :=
  {| req_body := empty_form; req_file := Some big |}.

(** * Properties *)

(** ** Paths

    A name without a separator that is not a dot entry joins to one
    component below [uploads/], and an extension never has a separator:
    the reference ["/uploads/" +:+ name] an insert stores resolves to the
    file of that name in the uploads directory of the script. *)

Lemma split_slash_plain (s : string) :
  "/"%char ∉ String.list_ascii_of_string s → split_slash s = [s].
Proof.
  induction s as [|c r IH]; simpl; [done|].
  intros Hno. destruct (Ascii.eqb_spec c "/") as [->|Hc].
  - destruct Hno. left.
  - rewrite IH; [done|]. intros Hin. apply Hno. by right.
Qed.

Lemma path_join_upload (d : path) (name : string) :
  "/"%char ∉ String.list_ascii_of_string name →
  name ≠ "" → name ≠ "." → name ≠ ".." →
  path_join d ("/uploads/" +:+ name) = (d ++ ["uploads"; name])%list.
Proof.
  intros Hno H0 H1 H2. unfold path_join. simpl.
  change ("" +:+ name) with name.
  rewrite (split_slash_plain name Hno). simpl.
  destruct (String.eqb_spec name "") as [|_]; [done|].
  destruct (String.eqb_spec name ".") as [|_]; [done|].
  destruct (String.eqb_spec name "..") as [|_]; [done|].
  simpl. rewrite rev_involutive. by rewrite <- !app_assoc.
Qed.

Lemma take_component_plain (l : list Ascii.ascii) : "/"%char ∉ take_component l.
Proof.
  induction l as [|c r IH]; simpl; [apply not_elem_of_nil|].
  destruct (Ascii.eqb_spec c "/") as [->|Hc]; [apply not_elem_of_nil|].
  intros [?|?]%elem_of_cons; [by subst|done].
Qed.

Lemma upto_dot_subseteq (l ext : list Ascii.ascii) :
  upto_dot l = Some ext → ∀ c, c ∈ ext → c ∈ l.
Proof.
  revert ext. induction l as [|a r IH]; simpl; intros ext; [done|].
  destruct (Ascii.eqb a ".").
  - intros [= <-] c ->%list_elem_of_singleton. left.
  - destruct (upto_dot r) as [ext'|]; simpl; [|done].
    intros [= <-] c [->|Hin]%elem_of_cons; [left|right]. by apply (IH ext').
Qed.

Lemma extname_plain (p : string) :
  "/"%char ∉ String.list_ascii_of_string (extname p).
Proof.
  unfold extname.
  destruct (upto_dot _) as [ext|] eqn:Hext; [|apply not_elem_of_nil].
  destruct (Nat.eqb _ _); [apply not_elem_of_nil|].
  destruct (String.eqb _ _); [apply not_elem_of_nil|].
  rewrite String.list_ascii_of_string_of_list_ascii.
  intros Hin%list_elem_of_In%in_rev%list_elem_of_In.
  apply (upto_dot_subseteq _ _ Hext) in Hin.
  by apply take_component_plain in Hin.
Qed.

Lemma append_cons (x : ascii) (a b : string) :
  String x a +:+ b = String x (a +:+ b).
Proof. reflexivity. Qed.

Lemma append_nil (b : string) : "" +:+ b = b.
Proof. reflexivity. Qed.

Section Properties.

Context {number : Type} {rt : Runtime number}.

Implicit Types (fs : filesystem number) (e : env) (v : jsval number).
Implicit Types (p : product number) (ps : list (product number)).
Implicit Types (body : form number) (req : request number).

(** ** Values and the JSON round trip *)

(** Induction on values, through the arrays and objects. *)
Lemma jsval_nested_ind (P : jsval number → Prop)
    (Hundefined : P JUndefined) (Hnull : P JNull)
    (Hbool : ∀ b, P (JBool b)) (Hnum : ∀ x, P (JNum x)) (Hstr : ∀ s, P (JStr s))
    (Harr : ∀ elems, Forall P elems → P (JArr elems))
    (Hobj : ∀ fields, Forall (λ kx, P kx.2) fields → P (JObj fields))
    (v : jsval number) : P v.
Proof.
  revert v. fix IH 1. intros [| |b|x|s|elems|fields].
  - exact Hundefined.
  - exact Hnull.
  - apply Hbool.
  - apply Hnum.
  - apply Hstr.
  - apply Harr. induction elems as [|x r IHr]; constructor; [apply IH|exact IHr].
  - apply Hobj. induction fields as [|kx r IHr]; constructor; [apply IH|exact IHr].
Qed.

Lemma json_val_undefined v : json_val v = JUndefined → v = JUndefined.
Proof.
  destruct v as [| |b|x|s|l|l]; simpl; try done.
  by destruct (jsonNumber x).
Qed.

(** A second round trip changes nothing. *)
Lemma json_val_stable v : json_val (json_val v) = json_val v.
Proof.
  induction v as [| |b|x|s|elems IH|fields IH] using jsval_nested_ind; try done.
  - simpl. destruct (jsonNumber x) as [y|] eqn:Hx; [|done].
    simpl. by rewrite (jsonNumber_stable x y Hx).
  - simpl. f_equal. rewrite map_map. apply map_ext_Forall.
    eapply Forall_impl; [exact IH|]. intros x Hx. simpl in Hx.
    destruct (json_val x) eqn:Hjx; cbn beta iota; rewrite ?Hx; done.
  - simpl. f_equal. induction IH as [|[k x] r Hx _ IHr]; [done|].
    cbn [omap list_omap snd fst] in *.
    destruct (json_val x) eqn:Hjx; cbn [omap list_omap snd fst];
      rewrite ?Hx, ?IHr; done.
Qed.

Lemma json_product_stable p : json_product (json_product p) = json_product p.
Proof. unfold json_product. simpl. by rewrite !json_val_stable. Qed.

Lemma strict_eq_str v (k : string) : strict_eq v (JStr k) = true ↔ v = JStr k.
Proof.
  destruct v as [| |b|x|s|l|l]; simpl; try (split; done).
  destruct (String.eqb_spec s k); split; congruence.
Qed.

Lemma js_or_string v (gen : string) :
  is_string v ∨ truthy v = false → is_string (js_or v (JStr gen)).
Proof.
  unfold js_or. intros [[s ->]| ->]; [|by eexists].
  simpl. destruct (negb _); by eexists.
Qed.

(** ** Where the files are *)

Lemma productsFile_eq : productsFile = (__dirname ++ ["products.json"])%list.
Proof. unfold productsFile, path_join. simpl. by rewrite rev_involutive. Qed.

Lemma uploadsDir_eq : uploadsDir = (__dirname ++ ["uploads"])%list.
Proof. unfold uploadsDir, path_join. simpl. by rewrite rev_involutive. Qed.

Lemma destination_eq : destination = (cwd ++ ["uploads"])%list.
Proof. unfold destination, path_join. simpl. by rewrite rev_involutive. Qed.

Lemma uploadsDir_ne_productsFile : uploadsDir ≠ productsFile.
Proof.
  rewrite productsFile_eq, uploadsDir_eq. intros Heq%app_inv_head. discriminate.
Qed.

Lemma filename_head (f : file) fs : ∃ rest, filename f fs = String "i" rest.
Proof. unfold filename. rewrite append_cons. eauto. Qed.

Lemma upload_target_ne (f : file) fs :
  (destination ++ [filename f fs])%list ≠ productsFile.
Proof.
  rewrite productsFile_eq. intros [_ Heq]%app_inj_tail.
  destruct (filename_head f fs) as [rest Hname]. rewrite Hname in Heq. discriminate.
Qed.

(** ** Reading and writing the collection *)

Lemma readProducts_lookup fs fs' :
  fs' !! productsFile = fs !! productsFile → readProducts fs' = readProducts fs.
Proof. unfold readProducts. by intros ->. Qed.

Lemma readProducts_written fs ps :
  readProducts (<[productsFile := File (Json ps)]> fs) = json_product <$> ps.
Proof. unfold readProducts. by rewrite lookup_insert_eq. Qed.

Lemma readProducts_cut fs (written : string) :
  readProducts (<[productsFile := File (Blob written)]> fs) = [].
Proof. unfold readProducts. by rewrite lookup_insert_eq. Qed.

(** What was read went through JSON already. *)
Lemma readProducts_stable fs : json_product <$> readProducts fs = readProducts fs.
Proof.
  unfold readProducts. destruct (fs !! productsFile) as [[|[b|ps]]|]; try done.
  rewrite <- list_fmap_compose. apply list_fmap_ext. intros i p _. simpl.
  apply json_product_stable.
Qed.

Lemma keys_stable fs : json_val <$> keys fs = keys fs.
Proof.
  unfold keys. rewrite <- (readProducts_stable fs) at 2.
  rewrite <- !list_fmap_compose. by apply list_fmap_ext.
Qed.

Lemma writeProducts_true e ps fs fs' :
  writeProducts e ps fs = (fs', true) →
  disk e = Accepts ∧ fs' = <[productsFile := File (Json ps)]> fs.
Proof.
  unfold writeProducts, writeFileSync.
  destruct (fs !! productsFile) as [[|c]|]; [by inversion 1|..];
    destruct (disk e); by inversion 1.
Qed.

Lemma writeProducts_false e ps fs fs' :
  writeProducts e ps fs = (fs', false) →
  fs' = fs
  ∨ (∃ written, disk e = Breaks written
                ∧ fs' = <[productsFile := File (Blob written)]> fs)
  ∨ (disk e = FailsAtClose ∧ fs' = <[productsFile := File (Json ps)]> fs).
Proof.
  unfold writeProducts, writeFileSync.
  destruct (fs !! productsFile) as [[|c]|]; [inversion 1; by left|..];
    destruct (disk e); inversion 1; eauto.
Qed.

Lemma writeProducts_false_read e ps fs fs' :
  writeProducts e ps fs = (fs', false) →
  readProducts fs' = readProducts fs ∨ readProducts fs' = []
  ∨ readProducts fs' = json_product <$> ps.
Proof.
  intros [->|[(w & _ & ->)|[_ ->]]]%writeProducts_false; [by left|..].
  - right. left. apply readProducts_cut.
  - right. right. apply readProducts_written.
Qed.

Lemma writeProducts_refused e ps fs :
  disk e = Refuses → writeProducts e ps fs = (fs, false).
Proof.
  unfold writeProducts, writeFileSync. intros ->.
  by destruct (fs !! productsFile) as [[|c]|].
Qed.

Lemma writeProducts_fault e ps fs :
  disk e ≠ Accepts → (writeProducts e ps fs).2 = false.
Proof.
  unfold writeProducts, writeFileSync. intros Hne.
  destruct (fs !! productsFile) as [[|c]|]; [done|..]; by destruct (disk e).
Qed.

Lemma writeProducts_ok e ps fs :
  disk e = Accepts → fs !! productsFile ≠ Some Dir →
  writeProducts e ps fs = (<[productsFile := File (Json ps)]> fs, true).
Proof.
  intros Hok Hdir. unfold writeProducts, writeFileSync. rewrite Hok.
  by destruct (fs !! productsFile) as [[|c]|].
Qed.

Lemma writeProducts_frame e ps fs (q : path) :
  q ≠ productsFile → (writeProducts e ps fs).1 !! q = fs !! q.
Proof.
  intros Hq. destruct (writeProducts e ps fs) as [fs' []] eqn:Hw; simpl.
  - apply writeProducts_true in Hw as [_ ->]. by rewrite lookup_insert_ne.
  - apply writeProducts_false in Hw as [->|[(w & _ & ->)|[_ ->]]]; [done|..];
      by rewrite lookup_insert_ne.
Qed.

Lemma writeProducts_readProducts e ps fs fs' :
  writeProducts e ps fs = (fs', true) → readProducts fs' = json_product <$> ps.
Proof. intros [_ ->]%writeProducts_true. apply readProducts_written. Qed.

Lemma trackingNumber_json ps :
  trackingNumber <$> (json_product <$> ps) = json_val <$> (trackingNumber <$> ps).
Proof. rewrite <- !list_fmap_compose. by apply list_fmap_ext. Qed.

(** The upload middleware never touches [products.json]. *)
Lemma upload_single_lookup f fs :
  (upload_single f fs).1 !! productsFile = fs !! productsFile.
Proof.
  unfold upload_single. destruct f as [sent|]; [|done].
  destruct (String.eqb _ _); [done|].
  destruct (fileFilter _); [|done].
  pose proof (upload_target_ne (received sent) fs) as Hne.
  destruct (fs !! destination) as [[|c0]|]; try done.
  destruct (fs !! _) as [[|c]|]; try done;
    destruct (_ <? _)%N; simpl;
    by rewrite ?lookup_insert_ne, ?lookup_delete_ne.
Qed.

Lemma upload_single_readProducts f fs :
  readProducts (upload_single f fs).1 = readProducts fs.
Proof. apply readProducts_lookup, upload_single_lookup. Qed.

(** ** Lookup by key *)

Lemma find_key_None (k : string) ps :
  list_find (has_key (JStr k)) ps = None ↔ JStr k ∉ trackingNumber <$> ps.
Proof.
  rewrite list_find_None, Forall_forall, list_elem_of_fmap. unfold has_key.
  split.
  - intros Hall (p & Hk & Hin). apply (Hall p Hin). by apply strict_eq_str.
  - intros Hno p Hin Hk%strict_eq_str. apply Hno. by exists p.
Qed.

Lemma find_key_Some (k : string) ps i p :
  list_find (has_key (JStr k)) ps = Some (i, p) →
  ps !! i = Some p ∧ trackingNumber p = JStr k.
Proof.
  intros (Hi & Hk & _)%list_find_Some. split; [done|]. by apply strict_eq_str.
Qed.


(** ** Uniqueness of keys *)


Lemma writeProducts_read e ps fs :
  readProducts (writeProducts e ps fs).1 = json_product <$> ps
  ∨ readProducts (writeProducts e ps fs).1 = readProducts fs
  ∨ readProducts (writeProducts e ps fs).1 = [].
Proof.
  destruct (writeProducts e ps fs) as [fs' []] eqn:Hw; simpl.
  - left. by eapply writeProducts_readProducts.
  - destruct (writeProducts_false_read _ _ _ _ Hw) as [?|[?|?]]; auto.
Qed.

Lemma post_handler_keys e body stored fs :
  is_string (body_trackingNumber body) ∨ truthy (body_trackingNumber body) = false →
  Forall is_string (keys fs) → NoDup (keys fs) →
  Forall is_string (keys (post_handler e body stored fs).1)
  ∧ NoDup (keys (post_handler e body stored fs).1).
Proof.
  intros Hbody Hstr Hnd. unfold post_handler. cbv zeta. cbn [trackingNumber].
  destruct (js_or_string _ (String.substring 2 10 (random e)) Hbody) as [k Hk].
  rewrite Hk.
  destruct (list_find _ _) as [[i p]|] eqn:Hfind; [done|].
  apply find_key_None in Hfind.
  match goal with
  | |- context [writeProducts ?e0 ?ps0 ?fs0] =>
      pose proof (writeProducts_read e0 ps0 fs0) as Hread;
      destruct (writeProducts e0 ps0 fs0) as [fs' ok]
  end.
  assert (Forall is_string (keys fs') ∧ NoDup (keys fs')) as Hgoal;
    [|by destruct ok].
  simpl in Hread. unfold keys. destruct Hread as [->|[->| ->]];
    [|done|split; [done|apply NoDup_nil_2]].
  rewrite trackingNumber_json, !fmap_app.
  change (trackingNumber <$> readProducts fs) with (keys fs).
  rewrite keys_stable. simpl. split.
  - apply Forall_app. split; [done|]. apply Forall_singleton. by exists k.
  - apply NoDup_app. split; [done|]. split; [|apply NoDup_singleton].
    intros x Hx ->%list_elem_of_singleton. done.
Qed.

Lemma route_post_keys e req fs :
  string_keyed (e, req) →
  Forall is_string (keys fs) → NoDup (keys fs) →
  Forall is_string (keys (route_post e req fs).1)
  ∧ NoDup (keys (route_post e req fs).1).
Proof.
  intros Hreq Hstr Hnd. unfold route_post, with_upload.
  pose proof (upload_single_readProducts (req_file req) fs) as Hrd.
  destruct (upload_single _ _) as [fs1 [err|stored]]; simpl in *.
  - unfold keys. by rewrite Hrd.
  - apply post_handler_keys; [done|..]; unfold keys; by rewrite Hrd.
Qed.



(** ** Update: the field-level merge *)

Lemma readProducts_nonempty fs i p :
  readProducts fs !! i = Some p → fs !! productsFile ≠ Some Dir.
Proof.
  unfold readProducts. by destruct (fs !! productsFile) as [[|[b|ps]]|].
Qed.

Lemma found_not_dir fs (key : string) i old :
  list_find (has_key (JStr key)) (readProducts fs) = Some (i, old) →
  fs !! productsFile ≠ Some Dir.
Proof. intros [Hi _]%find_key_Some. by eapply readProducts_nonempty. Qed.

Lemma js_or_provided a b : js_or a b = provided_or (drop_falsy a) b.
Proof.
  unfold js_or, provided_or, drop_falsy.
  destruct (truthy a) eqn:Ht; [|done]. by destruct a.
Qed.

Lemma put_handler_found e (key : string) body stored fs i old :
  list_find (has_key (JStr key)) (readProducts fs) = Some (i, old) →
  ∃ ok,
    writeProducts e (<[i := merge_as_specified (without_falsy body) stored old]>
                       (readProducts fs)) fs
      = ((put_handler e key body stored fs).1, ok) ∧
    (put_handler e key body stored fs).2
      = if ok
        then {| res_status := 200;
                res_json := Product (merge_as_specified (without_falsy body) stored old) |}
        else {| res_status := 500; res_json := Error "Failed to update product" |}.
Proof.
  intros Hfind. unfold put_handler. rewrite Hfind.
  unfold merge_as_specified, without_falsy. cbn [body_recipientName
    body_recipientAddress body_senderName body_weight body_serviceType
    body_status body_estimatedDelivery body_imageUrl].
  rewrite !js_or_provided.
  assert ((if truthy (body_weight body) then JNum (parseFloat (body_weight body))
           else weight old)
          = match drop_falsy (body_weight body) with
            | JUndefined => weight old
            | w => JNum (parseFloat w)
            end) as ->.
  { unfold drop_falsy. destruct (truthy _) eqn:Ht; [|done].
    by destruct (body_weight body). }
  destruct (writeProducts _ _ _) as [fs' ok]. exists ok. by destruct ok.
Qed.


(** ** Delete *)

Lemma cleanup_image_cases old fs fs1 :
  cleanup_image old fs = Some fs1 →
  fs1 = fs ∨
  ∃ image, packageImage old = JStr image ∧
           String.prefix "/uploads/" image = true ∧
           is_file (path_join __dirname image) fs ∧
           fs1 = delete (path_join __dirname image) fs.
Proof.
  unfold cleanup_image, existsSync, unlinkSync, is_file.
  destruct (truthy _); [|by inversion 1; left].
  destruct (packageImage old) as [| |b|x|image|l|l]; try done.
  destruct (String.prefix _ _) eqn:Hpre; [|by inversion 1; left].
  destruct (fs !! path_join _ _) as [[|c]|] eqn:Hl; try by inversion 1; left.
  destruct (trailing_slash _); simpl; inversion 1; [by left|].
  right. exists image. eauto.
Qed.

Lemma cleanup_image_unlinks old fs (image : string) c :
  packageImage old = JStr image →
  String.prefix "/uploads/" image = true →
  trailing_slash image = false →
  fs !! path_join __dirname image = Some (File c) →
  cleanup_image old fs = Some (delete (path_join __dirname image) fs).
Proof.
  intros Himg Hpre Hslash Hl. unfold cleanup_image, existsSync, unlinkSync.
  rewrite Himg, Hpre, Hslash, Hl. simpl.
  destruct (String.eqb_spec image "") as [Hempty|]; [|done].
  by rewrite Hempty in Hpre.
Qed.

Lemma cleanup_image_not_dir old fs fs1 :
  cleanup_image old fs = Some fs1 →
  fs !! productsFile ≠ Some Dir → fs1 !! productsFile ≠ Some Dir.
Proof.
  intros [->|(image & _ & _ & _ & ->)]%cleanup_image_cases Hdir; [done|].
  rewrite lookup_delete. by case_decide.
Qed.

Lemma delete_handler_absent e (key : string) fs :
  JStr key ∉ keys fs →
  delete_handler e key fs
    = (fs, {| res_status := 404; res_json := Error "Product not found" |}).
Proof.
  intros Hno%find_key_None. unfold delete_handler. by rewrite Hno.
Qed.

(** C4, amended. For an existing key, when the asset cleanup does not
    throw and the disk takes the write, delete removes the first record
    with that key from the collection, writes the remaining collection
    back, and answers 200 with the message "Product deleted successfully":
    the removed record drives the asset cleanup and is not part of the
    answer.  For an absent key the answer is 404 and the disk is as it
    was. *)
Theorem delete_removes_record e (key : string) fs :
  (∀ i old fs1,
     list_find (has_key (JStr key)) (readProducts fs) = Some (i, old) →
     cleanup_image old fs = Some fs1 →
     disk e = Accepts →
     delete_handler e key fs
       = (<[productsFile := File (Json (delete i (readProducts fs)))]> fs1,
          {| res_status := 200; res_json := Message "Product deleted successfully" |})) ∧
  (JStr key ∉ keys fs →
   delete_handler e key fs
     = (fs, {| res_status := 404; res_json := Error "Product not found" |})).
Proof.
  split; [|apply delete_handler_absent].
  intros i old fs1 Hfind Hclean Hok. unfold delete_handler.
  rewrite Hfind, Hclean, writeProducts_ok; [done..|].
  eapply cleanup_image_not_dir; [done|]. by eapply found_not_dir.
Qed.

(** ** Write faults *)

Lemma post_handler_fault e body stored fs :
  disk e ≠ Accepts →
  (res_status (post_handler e body stored fs).2 = 400 ∨
   res_status (post_handler e body stored fs).2 = 500) ∧
  (readProducts (post_handler e body stored fs).1 = readProducts fs ∨
   readProducts (post_handler e body stored fs).1 = [] ∨
   ∃ p, readProducts (post_handler e body stored fs).1
        = (readProducts fs ++ [p])%list) ∧
  (disk e = Refuses → (post_handler e body stored fs).1 = fs).
Proof.
  intros Hf. unfold post_handler. cbv zeta.
  destruct (list_find _ _); [by auto|].
  match goal with
  | |- context [writeProducts ?e0 ?ps0 ?fs0] =>
      pose proof (writeProducts_fault e0 ps0 fs0 Hf) as Hw;
      pose proof (writeProducts_refused e0 ps0 fs0) as Href;
      pose proof (writeProducts_false_read e0 ps0 fs0) as Hread;
      destruct (writeProducts e0 ps0 fs0) as [fs' ok]
  end.
  simpl in Hw. subst ok. simpl. split; [by right|]. split.
  - destruct (Hread fs' eq_refl) as [?|[?|Hr]]; [by left|by right; left|].
    right. right. rewrite fmap_app, readProducts_stable in Hr. eauto.
  - intros Hr. specialize (Href Hr). congruence.
Qed.

Lemma put_handler_fault e (key : string) body stored fs :
  disk e ≠ Accepts →
  (res_status (put_handler e key body stored fs).2 = 404 ∨
   res_status (put_handler e key body stored fs).2 = 500) ∧
  (readProducts (put_handler e key body stored fs).1 = readProducts fs ∨
   readProducts (put_handler e key body stored fs).1 = [] ∨
   ∃ i p, readProducts (put_handler e key body stored fs).1
          = <[i := p]> (readProducts fs)) ∧
  (disk e = Refuses → (put_handler e key body stored fs).1 = fs).
Proof.
  intros Hf. unfold put_handler. cbv zeta.
  destruct (list_find _ _) as [[i old]|]; [|by auto].
  match goal with
  | |- context [writeProducts ?e0 ?ps0 ?fs0] =>
      pose proof (writeProducts_fault e0 ps0 fs0 Hf) as Hw;
      pose proof (writeProducts_refused e0 ps0 fs0) as Href;
      pose proof (writeProducts_false_read e0 ps0 fs0) as Hread;
      destruct (writeProducts e0 ps0 fs0) as [fs' ok]
  end.
  simpl in Hw. subst ok. simpl. split; [by right|]. split.
  - destruct (Hread fs' eq_refl) as [?|[?|Hr]]; [by left|by right; left|].
    right. right. rewrite list_fmap_insert, readProducts_stable in Hr. eauto.
  - intros Hr. specialize (Href Hr). congruence.
Qed.

Lemma cleanup_image_read old fs fs1 :
  cleanup_image old fs = Some fs1 →
  readProducts fs1 = readProducts fs ∨ readProducts fs1 = [].
Proof.
  intros [->|(image & _ & _ & _ & ->)]%cleanup_image_cases; [by left|].
  destruct (decide (path_join __dirname image = productsFile)) as [Heq|Hne].
  - right. unfold readProducts. by rewrite Heq, lookup_delete_eq.
  - left. apply readProducts_lookup. by rewrite lookup_delete_ne.
Qed.

Lemma delete_handler_fault e (key : string) fs :
  disk e ≠ Accepts →
  (res_status (delete_handler e key fs).2 = 404 ∨
   res_status (delete_handler e key fs).2 = 500) ∧
  (readProducts (delete_handler e key fs).1 = readProducts fs ∨
   readProducts (delete_handler e key fs).1 = [] ∨
   ∃ i, readProducts (delete_handler e key fs).1 = delete i (readProducts fs)).
Proof.
  intros Hf. unfold delete_handler. cbv zeta.
  destruct (list_find _ _) as [[i old]|]; [|by auto].
  destruct (cleanup_image _ _) as [fs1|] eqn:Hc; [|by auto].
  match goal with
  | |- context [writeProducts ?e0 ?ps0 ?fs0] =>
      pose proof (writeProducts_fault e0 ps0 fs0 Hf) as Hw;
      pose proof (writeProducts_false_read e0 ps0 fs0) as Hread;
      destruct (writeProducts e0 ps0 fs0) as [fs' ok]
  end.
  simpl in Hw. subst ok. simpl. split; [by right|].
  destruct (Hread fs' eq_refl) as [Hr|[?|Hr]]; [|by right; left|].
  - rewrite Hr. destruct (cleanup_image_read _ _ _ Hc) as [?|?]; auto.
  - right. right. exists i. by rewrite list_fmap_delete, readProducts_stable in Hr.
Qed.

(** C5, amended. When the medium does not take the write, no mutating
    operation answers with success: insert answers 400 or 500, update and
    delete 404 or 500.  The attempted mutation is not always discarded:
    the stored collection afterwards is the one from before, or is empty
    (the file was truncated, or the cleanup of a delete removed it), or is
    the attempted one (the error came when the file was closed).  When the
    medium refuses the write at the open, [products.json] is as it was
    after an insert or an update, and after a delete whose removed
    record's image does not resolve to [products.json] itself.  A delete
    of an absent key leaves the disk as it was.  Asset files are not
    covered. *)
Theorem write_fault_keeps_collection e :
  disk e ≠ Accepts →
  (∀ req fs,
     (res_status (route_post e req fs).2 = 400 ∨
      res_status (route_post e req fs).2 = 500) ∧
     (readProducts (route_post e req fs).1 = readProducts fs ∨
      readProducts (route_post e req fs).1 = [] ∨
      ∃ p, readProducts (route_post e req fs).1 = (readProducts fs ++ [p])%list) ∧
     (disk e = Refuses →
      (route_post e req fs).1 !! productsFile = fs !! productsFile)) ∧
  (∀ (key : string) req fs,
     (res_status (route_put e key req fs).2 = 404 ∨
      res_status (route_put e key req fs).2 = 500) ∧
     (readProducts (route_put e key req fs).1 = readProducts fs ∨
      readProducts (route_put e key req fs).1 = [] ∨
      ∃ i p, readProducts (route_put e key req fs).1 = <[i := p]> (readProducts fs)) ∧
     (disk e = Refuses →
      (route_put e key req fs).1 !! productsFile = fs !! productsFile)) ∧
  (∀ (key : string) fs,
     (res_status (delete_handler e key fs).2 = 404 ∨
      res_status (delete_handler e key fs).2 = 500) ∧
     (readProducts (delete_handler e key fs).1 = readProducts fs ∨
      readProducts (delete_handler e key fs).1 = [] ∨
      ∃ i, readProducts (delete_handler e key fs).1 = delete i (readProducts fs)) ∧
     (disk e = Refuses →
      ∀ i old,
        list_find (has_key (JStr key)) (readProducts fs) = Some (i, old) →
        (∀ image, packageImage old = JStr image →
                  path_join __dirname image ≠ productsFile) →
        (delete_handler e key fs).1 !! productsFile = fs !! productsFile) ∧
     (JStr key ∉ keys fs → (delete_handler e key fs).1 = fs)).
Proof.
  intros Hf. split; [|split].
  - intros req fs. unfold route_post, with_upload.
    pose proof (upload_single_readProducts (req_file req) fs) as Hrd.
    pose proof (upload_single_lookup (req_file req) fs) as Hlk.
    destruct (upload_single _ _) as [fs1 [err|stored]]; simpl in *; [by auto|].
    destruct (post_handler_fault e (req_body req) stored fs1 Hf) as (Hst & Hr & Href).
    rewrite Hrd in Hr. split; [done|]. split; [done|].
    intros Hrf. by rewrite (Href Hrf).
  - intros key req fs. unfold route_put, with_upload.
    pose proof (upload_single_readProducts (req_file req) fs) as Hrd.
    pose proof (upload_single_lookup (req_file req) fs) as Hlk.
    destruct (upload_single _ _) as [fs1 [err|stored]]; simpl in *; [by auto|].
    destruct (put_handler_fault e key (req_body req) stored fs1 Hf) as (Hst & Hr & Href).
    rewrite Hrd in Hr. split; [done|]. split; [done|].
    intros Hrf. by rewrite (Href Hrf).
  - intros key fs. destruct (delete_handler_fault e key fs Hf) as [Hst Hr].
    split; [done|]. split; [done|].
    split; [|intros Hno; by rewrite delete_handler_absent].
    intros Hrf i old Hfind Hne. unfold delete_handler. rewrite Hfind.
    destruct (cleanup_image _ _) as [fs1|] eqn:Hc; [|done].
    rewrite writeProducts_refused by done. simpl.
    apply cleanup_image_cases in Hc as [->|(image & Himg & _ & _ & ->)]; [done|].
    rewrite lookup_delete_ne; [done|]. by apply Hne.
Qed.

(** ** Read faults *)

Lemma read_fault_readProducts fs : read_fault fs → readProducts fs = [].
Proof.
  unfold read_fault, readProducts. by intros [->|[->|[b ->]]].
Qed.

(** C6. When [products.json] cannot be read or parsed, listing answers 200
    with the empty sequence and a lookup by key answers 404, the answer it
    gives on an empty store; neither raises. *)
Theorem read_fault_is_empty_store fs (key : string) :
  read_fault fs →
  get_products fs = (fs, {| res_status := 200; res_json := Products [] |}) ∧
  get_product key fs
    = (fs, {| res_status := 404; res_json := Error "Product not found" |}) ∧
  (get_product key fs).2
    = (get_product key (<[productsFile := File (Json [])]> fs)).2.
Proof.
  intros Hf%read_fault_readProducts. unfold get_products, get_product.
  by rewrite Hf, readProducts_written.
Qed.

(** ** Insert: the created record *)


(** ** Update: the key and the assets *)

Lemma keys_written fs ps :
  keys (<[productsFile := File (Json ps)]> fs) = json_val <$> (trackingNumber <$> ps).
Proof. unfold keys. by rewrite readProducts_written, trackingNumber_json. Qed.

Lemma keys_updated fs i p old :
  readProducts fs !! i = Some old →
  trackingNumber p = trackingNumber old →
  keys (<[productsFile := File (Json (<[i := p]> (readProducts fs)))]> fs) = keys fs.
Proof.
  intros Hi Hk. rewrite keys_written, list_fmap_insert, Hk.
  rewrite list_insert_id; [apply keys_stable|]. by rewrite list_lookup_fmap, Hi.
Qed.

Lemma put_handler_keys e (key : string) body stored fs :
  keys (put_handler e key body stored fs).1 = keys fs
  ∨ ∃ written, disk e = Breaks written
               ∧ keys (put_handler e key body stored fs).1 = [].
Proof.
  destruct (list_find (has_key (JStr key)) (readProducts fs)) as [[i old]|] eqn:Hfind.
  - destruct (put_handler_found e key body stored fs i old Hfind) as (ok & Hw & _).
    destruct (find_key_Some _ _ _ _ Hfind) as [Hi _].
    destruct ok.
    + apply writeProducts_true in Hw as [_ ->]. left. by eapply keys_updated.
    + apply writeProducts_false in Hw as [->|[(w & Hd & ->)|[_ ->]]].
      * by left.
      * right. exists w. split; [done|]. unfold keys. by rewrite readProducts_cut.
      * left. by eapply keys_updated.
  - left. unfold put_handler. by rewrite Hfind.
Qed.

(** C8. An update never changes a tracking number, whatever the payload
    supplies: the sequence of stored keys after the request is the one
    from before (unless the write broke off and left a truncated file,
    which holds no record at all), and a record the update returns
    carries the key of the request, which is the key of the record it
    replaced in place. *)
Theorem update_keeps_trackingNumber e (key : string) req fs :
  (keys (route_put e key req fs).1 = keys fs
   ∨ ∃ written, disk e = Breaks written ∧ keys (route_put e key req fs).1 = []) ∧
  (∀ code p,
     (route_put e key req fs).2 = {| res_status := code; res_json := Product p |} →
     trackingNumber p = JStr key ∧
     ∃ i old,
       list_find (has_key (JStr key)) (readProducts fs) = Some (i, old) ∧
       trackingNumber p = trackingNumber old ∧
       readProducts (route_put e key req fs).1 !! i = Some (json_product p)).
Proof.
  unfold route_put, with_upload.
  pose proof (upload_single_readProducts (req_file req) fs) as Hrd.
  destruct (upload_single _ _) as [fs1 [err|stored]]; simpl in *.
  { split; [left; unfold keys; by rewrite Hrd | by inversion 1]. }
  split.
  { assert (keys fs1 = keys fs) as <- by (unfold keys; by rewrite Hrd).
    apply put_handler_keys. }
  intros code p Hres. rewrite <- Hrd.
  destruct (list_find (has_key (JStr key)) (readProducts fs1)) as [[i old]|] eqn:Hfind.
  - destruct (put_handler_found e key (req_body req) stored fs1 i old Hfind)
      as (ok & Hw & Hr).
    rewrite Hr in Hres. destruct ok; [|by inversion Hres].
    inversion Hres; subst. apply writeProducts_true in Hw as [_ ->].
    destruct (find_key_Some _ _ _ _ Hfind) as [Hi Hk].
    split; [done|]. exists i, old. split; [done|]. split; [done|].
    rewrite readProducts_written, list_lookup_fmap, list_lookup_insert_eq; [done|].
    by eapply lookup_lt_Some.
  - unfold put_handler in Hres. rewrite Hfind in Hres. by inversion Hres.
Qed.





Lemma put_handler_frame e (key : string) body stored fs (q : path) :
  q ≠ productsFile → (put_handler e key body stored fs).1 !! q = fs !! q.
Proof.
  intros Hq. unfold put_handler. cbv zeta.
  destruct (list_find _ _) as [[i old]|]; [|done].
  match goal with
  | |- context [writeProducts ?e0 ?ps0 ?fs0] =>
      pose proof (writeProducts_frame e0 ps0 fs0 q Hq) as Hw;
      destruct (writeProducts e0 ps0 fs0) as [fs' []]
  end; done.
Qed.


(** ** Asset cleanup *)

(** Cleanup leaves the disk alone for a record without a reference, for a
    reference outside the managed prefix (an external URL, the
    placeholder) and for a missing file. *)
Lemma cleanup_image_skips old fs :
  truthy (packageImage old) = false
  ∨ (∃ image, packageImage old = JStr image
              ∧ (String.prefix "/uploads/" image = false
                 ∨ fs !! path_join __dirname image = None)) →
  cleanup_image old fs = Some fs.
Proof.
  unfold cleanup_image, existsSync.
  intros [->|(image & -> & [->| ->])]; [done|..];
    destruct (truthy _); try done.
  by destruct (String.prefix _ _).
Qed.

End Properties.

(** * The properties on the sample disks *)

Lemma disk1_products : readProducts disk1 = [tn1].
Proof. vm_compute. reflexivity. Qed.

Lemma disk1_find :
  list_find (has_key (JStr "TN1")) (readProducts disk1) = Some (0, tn1).
Proof. vm_compute. reflexivity. Qed.





(** C4 as stated fails: the answer to a delete is a message, not the
    removed record. *)
Lemma delete_answer_counterexample :
  list_find (has_key (JStr "TN1")) (readProducts disk1) = Some (0, tn1) ∧
  (delete_handler env0 "TN1" disk1).2
    = {| res_status := 200; res_json := Message "Product deleted successfully" |} ∧
  res_json (delete_handler env0 "TN1" disk1).2 ≠ Product tn1.
Proof.
  split; [exact disk1_find|]. split; [vm_compute; reflexivity|].
  vm_compute. discriminate.
Qed.

(** Scenario 4: ["TN1"] deleted, its image with it. *)
Lemma delete_removes_record_witness :
  list_find (has_key (JStr "TN1")) (readProducts disk1) = Some (0, tn1) ∧
  cleanup_image tn1 disk1
    = Some (delete (path_join __dirname "/uploads/image1.png") disk1) ∧
  disk env0 = Accepts ∧
  delete_handler env0 "TN1" disk1
    = (<[productsFile := File (Json (delete 0 (readProducts disk1)))]>
         (delete (path_join __dirname "/uploads/image1.png") disk1),
       {| res_status := 200; res_json := Message "Product deleted successfully" |}) ∧
  (JStr "TN7" ∉ keys disk1) ∧
  delete_handler env0 "TN7" disk1
    = (disk1, {| res_status := 404; res_json := Error "Product not found" |}).
Proof.
  pose proof (cleanup_image_unlinks tn1 disk1 "/uploads/image1.png" (Blob "PNG-bytes"))
    as Hclean.
  assert (JStr "TN7" ∉ keys disk1) as Hno.
  { intros Hin. vm_compute in Hin. apply list_elem_of_singleton in Hin. discriminate. }
  destruct (delete_removes_record env0 "TN1" disk1) as [Hdel _].
  destruct (delete_removes_record env0 "TN7" disk1) as [_ Habsent].
  split; [exact disk1_find|].
  split; [apply Hclean; vm_compute; reflexivity|]. split; [reflexivity|].
  split; [|split; [exact Hno|exact (Habsent Hno)]].
  apply (Hdel 0 tn1 _ disk1_find); [|reflexivity].
  apply Hclean; vm_compute; reflexivity.
Defined.

(** C5 as stated fails.  A delete whose write is refused answers 500, and
    the image it unlinked before the write is gone all the same; an insert
    whose write breaks off answers 500 and leaves a truncated file, so the
    record that was stored is gone; an insert whose write fails at the
    close answers 500 and the record it attempted is stored. *)
Lemma failed_delete_counterexample :
  (disk env_fault ≠ Accepts ∧
   (delete_handler env_fault "TN1" disk1).2
     = {| res_status := 500; res_json := Error "Failed to delete product" |} ∧
   disk1 !! image1 = Some (File (Blob "PNG-bytes")) ∧
   (delete_handler env_fault "TN1" disk1).1 !! image1 = None ∧
   (delete_handler env_fault "TN1" disk1).1 ≠ disk1) ∧
  (disk env_break ≠ Accepts ∧
   (route_post env_break req_plain disk1).2
     = {| res_status := 500; res_json := Error "Failed to save product" |} ∧
   readProducts disk1 = [tn1] ∧
   readProducts (route_post env_break req_plain disk1).1 = []) ∧
  (disk env_close ≠ Accepts ∧
   (route_post env_close req_plain disk1).2
     = {| res_status := 500; res_json := Error "Failed to save product" |} ∧
   keys (route_post env_close req_plain disk1).1 = [JStr "TN1"; JStr "8274610395"]).
Proof.
  split; [|split].
  - split; [discriminate|]. split; [vm_compute; reflexivity|].
    split; [vm_compute; reflexivity|]. split; [vm_compute; reflexivity|].
    intros Heq. apply (f_equal (λ fs : filesystem decimal, fs !! image1)) in Heq.
    vm_compute in Heq. discriminate.
  - split; [discriminate|]. split; [vm_compute; reflexivity|].
    split; [exact disk1_products|]. vm_compute. reflexivity.
  - split; [discriminate|]. split; vm_compute; reflexivity.
Qed.

Lemma write_fault_keeps_collection_witness :
  disk env_fault ≠ Accepts ∧
  (route_post env_fault {| req_body := with_key (JStr "TN2") scenario_form;
                           req_file := Some png |} disk1).1 !! productsFile
    = disk1 !! productsFile ∧
  (route_put env_fault "TN1" req_delivered disk1).1 !! productsFile
    = disk1 !! productsFile ∧
  (delete_handler env_fault "TN1" disk1).1 !! productsFile = disk1 !! productsFile ∧
  res_status (delete_handler env_fault "TN1" disk1).2 = 500.
Proof.
  assert (disk env_fault ≠ Accepts) as Hf by discriminate.
  destruct (write_fault_keeps_collection env_fault Hf) as (Hpost & Hput & Hdel).
  split; [exact Hf|]. split; [by apply Hpost|]. split; [by apply Hput|].
  destruct (Hdel "TN1" disk1) as (Hst & _ & Hkeep & _).
  split.
  - apply (Hkeep eq_refl 0 tn1 disk1_find).
    intros image [= <-]. vm_compute. discriminate.
  - destruct Hst as [Hst|Hst]; [vm_compute in Hst; discriminate|exact Hst].
Defined.

(** A missing and a cut-short [products.json]. *)
Lemma read_fault_is_empty_store_witness :
  (read_fault (∅ : filesystem decimal) ∧
   get_products (∅ : filesystem decimal)
     = (∅, {| res_status := 200; res_json := Products [] |})) ∧
  (read_fault disk_corrupt ∧
   get_product "TN1" disk_corrupt
     = (disk_corrupt, {| res_status := 404; res_json := Error "Product not found" |})).
Proof.
  assert (read_fault (∅ : filesystem decimal)) as Hmissing by (left; apply lookup_empty).
  assert (read_fault disk_corrupt) as Hcorrupt.
  { right. right. exists "[{". vm_compute. reflexivity. }
  split; (split; [done|]).
  - apply (read_fault_is_empty_store ∅ "TN1" Hmissing).
  - apply (read_fault_is_empty_store disk_corrupt "TN1" Hcorrupt).
Defined.


(** An update of ["TN1"] whose payload supplies another tracking number. *)
Lemma update_keeps_trackingNumber_witness :
  keys (route_put env0 "TN1"
          {| req_body := with_key (JStr "TN5") (status_only (JStr "delivered"));
             req_file := None |}
          disk1).1 = [JStr "TN1"] ∧
  trackingNumber (set_status (JStr "delivered") tn1) = JStr "TN1".
Proof.
  destruct (update_keeps_trackingNumber env0 "TN1"
              {| req_body := with_key (JStr "TN5") (status_only (JStr "delivered"));
                 req_file := None |}
              disk1) as [Hkeys Hrec].
  split.
  - destruct Hkeys as [Hkeys|(w & Hw & _)]; [|discriminate].
    rewrite Hkeys. vm_compute. reflexivity.
  - apply (Hrec 200 (set_status (JStr "delivered") tn1)). vm_compute. reflexivity.
Defined.




(** C9 on the climbing reference: ["/uploads/../server.js"] passes the
    prefix test, resolves to the script next to [uploads/], and the delete
    of its record unlinks the script and answers 200. *)
Theorem delete_unlinks_outside_uploads :
  (∃ old, list_find (has_key (JStr "TN9")) (readProducts disk_climb) = Some (0, old)
          ∧ packageImage old = JStr "/uploads/../server.js") ∧
  String.prefix "/uploads/" "/uploads/../server.js" = true ∧
  path_join __dirname "/uploads/../server.js" = server_js ∧
  ¬ (uploadsDir `prefix_of` server_js) ∧
  is_file server_js disk_climb ∧
  (delete_handler env0 "TN9" disk_climb).1 !! server_js = None ∧
  res_status (delete_handler env0 "TN9" disk_climb).2 = 200.
Proof.
  split; [eexists; split; [vm_compute; reflexivity|reflexivity]|].
  split; [reflexivity|]. split; [reflexivity|]. split.
  { intros [k Hk]. vm_compute in Hk. discriminate. }
  split; [eexists; vm_compute; reflexivity|].
  split; vm_compute; reflexivity.
Qed.

(** The reference ["/uploads/"] names the managed directory itself: the
    unlink throws, the delete answers 500 and the record stays. *)
Lemma delete_throws_on_directory :
  (delete_handler env0 "TN8" disk_dir).2
    = {| res_status := 500; res_json := Error "Internal server error" |} ∧
  keys (delete_handler env0 "TN8" disk_dir).1 = [JStr "TN8"].
Proof. split; vm_compute; reflexivity. Qed.

(** * Further properties of the server *)

Section Store.

Context {number : Type} {rt : Runtime number}.

Implicit Types (fs : filesystem number) (e : env).
Implicit Types (p : product number) (ps : list (product number)).

(** ** The two helper functions *)

(** X1. A write followed by a read.  When [writeProducts] reports success
    the next [readProducts] gives the written list as JSON carries it.
    When it reports failure the next read gives what it gave before, or
    nothing, or the written list: the disk is as it was when the medium
    refused the write at the open or a directory is in the way, and the
    read gives nothing when the write broke off.  Either way no file
    other than [products.json] is touched. *)
Theorem write_then_read e ps fs :
  ((writeProducts e ps fs).2 = true →
   readProducts (writeProducts e ps fs).1 = json_product <$> ps) ∧
  ((writeProducts e ps fs).2 = false →
   (readProducts (writeProducts e ps fs).1 = readProducts fs
    ∨ readProducts (writeProducts e ps fs).1 = []
    ∨ readProducts (writeProducts e ps fs).1 = json_product <$> ps) ∧
   (disk e = Refuses ∨ fs !! productsFile = Some Dir →
    (writeProducts e ps fs).1 = fs) ∧
   (∀ written, disk e = Breaks written → fs !! productsFile ≠ Some Dir →
      readProducts (writeProducts e ps fs).1 = [])) ∧
  (∀ q : path, q ≠ productsFile → (writeProducts e ps fs).1 !! q = fs !! q).
Proof.
  split; [|split; [|apply writeProducts_frame]].
  - destruct (writeProducts e ps fs) as [fs' ok] eqn:Hw. simpl. intros ->.
    by eapply writeProducts_readProducts.
  - destruct (writeProducts e ps fs) as [fs' ok] eqn:Hw. simpl. intros ->.
    split; [by eapply writeProducts_false_read|]. split.
    + intros [Hr|Hdir].
      * rewrite (writeProducts_refused _ _ _ Hr) in Hw. congruence.
      * unfold writeProducts, writeFileSync in Hw. rewrite Hdir in Hw. congruence.
    + intros w Hd Hdir. unfold writeProducts, writeFileSync in Hw.
      rewrite Hd in Hw. destruct (fs !! productsFile) as [[|c]|] eqn:Hl; [done|..];
        inversion Hw; apply readProducts_cut.
Qed.

(** ** Lookup *)

(** X2. [GET /api/products/:trackingNumber] answers 404 exactly when no
    stored record has the key, and otherwise 200 with the first stored
    record that has it; it leaves the disk as it is. *)
Theorem get_product_first_match (key : string) fs :
  (get_product key fs).1 = fs ∧
  (JStr key ∉ keys fs ↔
   (get_product key fs).2
     = {| res_status := 404; res_json := Error "Product not found" |}) ∧
  (∀ p, (get_product key fs).2 = {| res_status := 200; res_json := Product p |} ↔
        ∃ i, readProducts fs !! i = Some p ∧ trackingNumber p = JStr key ∧
             ∀ j q, readProducts fs !! j = Some q → j < i →
                    trackingNumber q ≠ JStr key).
Proof.
  unfold get_product.
  destruct (list_find (has_key (JStr key)) (readProducts fs)) as [[i p0]|] eqn:Hfind;
    simpl.
  - split; [done|]. split.
    + split; [|done]. intros Hno. apply find_key_None in Hno. congruence.
    + intros p. split.
      * intros [= <-]. apply list_find_Some in Hfind as (Hi & Hk & Hlt).
        exists i. split; [done|]. split; [by apply strict_eq_str|].
        intros j q Hj Hji Hq. apply (Hlt j q Hj Hji). by apply strict_eq_str.
      * intros (i' & Hi' & Hk' & Hlt'). do 2 f_equal.
        assert (list_find (has_key (JStr key)) (readProducts fs) = Some (i', p)) as Hf.
        { apply list_find_Some. split; [done|]. split; [by apply strict_eq_str|].
          intros j q Hj Hji Hq%strict_eq_str. by apply (Hlt' j q). }
        congruence.
  - split; [done|]. split; [by split; [|intros _; apply find_key_None]|].
    intros p. split; [done|]. intros (i & Hi & Hk & _).
    apply list_find_None in Hfind. rewrite Forall_forall in Hfind.
    destruct (Hfind p); [|by apply strict_eq_str]. apply list_elem_of_lookup. eauto.
Qed.

(** ** Start-up *)

Lemma existsSync_is_Some (q : path) fs :
  existsSync q false fs = true ↔ is_Some (fs !! q).
Proof.
  unfold existsSync. destruct (fs !! q) as [[|c]|]; simpl;
    (split; [intros Ht|intros [x Hx]]); try done; eauto.
Qed.

Lemma existsSync_None (q : path) fs :
  existsSync q false fs = false ↔ fs !! q = None.
Proof.
  unfold existsSync. by destruct (fs !! q) as [[|c]|].
Qed.

Lemma startup_cases fs :
  startup fs
  = (if existsSync productsFile false fs then (λ x, x)
     else <[productsFile := File (Json [])]>)
      (if existsSync uploadsDir false fs then fs else <[uploadsDir := Dir]> fs).
Proof.
  pose proof uploadsDir_ne_productsFile as Hne.
  unfold startup.
  destruct (existsSync uploadsDir false fs);
    [by destruct (existsSync productsFile false fs)|].
  unfold existsSync. rewrite lookup_insert_ne by done.
  by destruct (fs !! productsFile) as [[|c]|].
Qed.

Lemma startup_lookup fs (q : path) :
  startup fs !! q
  = match fs !! q with
    | Some n => Some n
    | None =>
        if decide (q = uploadsDir) then Some Dir
        else if decide (q = productsFile) then Some (File (Json []))
        else None
    end.
Proof.
  pose proof uploadsDir_ne_productsFile as Hne.
  assert (∀ fs1 : filesystem number,
            (if existsSync uploadsDir false fs then fs1 else <[uploadsDir := Dir]> fs1)
              !! q
            = match fs !! uploadsDir with
              | None => if decide (q = uploadsDir) then Some Dir else fs1 !! q
              | Some _ => fs1 !! q
              end) as Hup.
  { intros fs1. unfold existsSync. destruct (fs !! uploadsDir) as [[|c]|]; try done.
    case_decide as Hq; [subst; apply lookup_insert_eq|by apply lookup_insert_ne]. }
  rewrite startup_cases.
  destruct (existsSync productsFile false fs) eqn:Hep.
  - rewrite Hup. apply existsSync_is_Some in Hep as [np Hep].
    destruct (fs !! uploadsDir) as [nu|] eqn:Heu.
    + destruct (fs !! q) as [n|] eqn:Hq; [done|].
      rewrite decide_False by congruence. rewrite decide_False by congruence. done.
    + case_decide as Hq; [subst; by rewrite Heu|].
      destruct (fs !! q) as [n|] eqn:Hl; [done|].
      rewrite decide_False by congruence. done.
  - apply existsSync_None in Hep.
    destruct (decide (q = productsFile)) as [->|Hqp].
    + rewrite lookup_insert_eq, Hep. by rewrite decide_False.
    + rewrite lookup_insert_ne by done. rewrite Hup.
      destruct (fs !! uploadsDir) as [nu|] eqn:Heu.
      * destruct (fs !! q) as [n|] eqn:Hq; [done|].
        rewrite decide_False by congruence. done.
      * case_decide as Hq; [subst; by rewrite Heu|]. by destruct (fs !! q).
Qed.

(** X3. Start-up creates what is missing and nothing else: afterwards the
    disk holds every entry it held, as it was (an existing [products.json]
    is never reset, whatever it holds), a directory at [uploads/] if
    nothing was there, an empty collection at [products.json] if nothing
    was there, and nothing more; the stored collection reads as before,
    and starting again changes nothing. *)
Theorem startup_keeps_store fs :
  (∀ q : path,
     startup fs !! q
     = match fs !! q with
       | Some n => Some n
       | None =>
           if decide (q = uploadsDir) then Some Dir
           else if decide (q = productsFile) then Some (File (Json []))
           else None
       end) ∧
  readProducts (startup fs) = readProducts fs ∧
  startup (startup fs) = startup fs.
Proof.
  pose proof uploadsDir_ne_productsFile as Hne.
  split; [apply startup_lookup|]. split.
  - unfold readProducts. rewrite startup_lookup.
    destruct (fs !! productsFile) as [n|]; [done|].
    by rewrite decide_False, decide_True by done.
  - rewrite (startup_cases (startup fs)).
    assert (is_Some (startup fs !! uploadsDir)) as Hu.
    { rewrite startup_lookup. destruct (fs !! uploadsDir); [by eauto|].
      rewrite decide_True by done. by eauto. }
    assert (is_Some (startup fs !! productsFile)) as Hp.
    { rewrite startup_lookup. destruct (fs !! productsFile); [by eauto|].
      rewrite decide_False, decide_True by done. by eauto. }
    apply existsSync_is_Some in Hu, Hp. by rewrite Hu, Hp.
Qed.

(** ** What each mutating route leaves in [products.json] *)

Lemma absent_key k ps :
  list_find (has_key k) ps = None ↔
  ∀ q, q ∈ ps → strict_eq (trackingNumber q) k = false.
Proof.
  rewrite list_find_None, Forall_forall. unfold has_key.
  split; intros Hall q Hq; specialize (Hall q Hq);
    by destruct (strict_eq (trackingNumber q) k).
Qed.

Lemma route_post_outcome e req fs :
  (∃ p, (route_post e req fs).2 = {| res_status := 201; res_json := Product p |} ∧
        (∀ q, q ∈ readProducts fs → strict_eq (trackingNumber q) (trackingNumber p) = false) ∧
        (route_post e req fs).1 !! productsFile
          = Some (File (Json (readProducts fs ++ [p])%list))) ∨
  (res_status (route_post e req fs).2 = 400 ∧
   (route_post e req fs).1 !! productsFile = fs !! productsFile) ∨
  (res_status (route_post e req fs).2 = 500 ∧
   (readProducts (route_post e req fs).1 = readProducts fs ∨
    readProducts (route_post e req fs).1 = [] ∨
    ∃ p, readProducts (route_post e req fs).1 = (readProducts fs ++ [p])%list)).
Proof.
  unfold route_post, with_upload.
  pose proof (upload_single_lookup (req_file req) fs) as Hl.
  pose proof (upload_single_readProducts (req_file req) fs) as Hrd.
  destruct (upload_single _ _) as [fs1 [err|stored]]; simpl in *; [by auto|].
  unfold post_handler. cbv zeta. cbn [trackingNumber]. rewrite Hrd.
  destruct (list_find _ _) as [[i p0]|] eqn:Hfind; [by auto|].
  pose proof (proj1 (absent_key _ _) Hfind) as Hfresh.
  destruct (writeProducts _ _ _) as [fs' []] eqn:Hw; simpl.
  - left. eexists. split; [done|]. split; [done|].
    apply writeProducts_true in Hw as [_ ->]. by rewrite lookup_insert_eq.
  - right. right. split; [done|].
    destruct (writeProducts_false_read _ _ _ _ Hw) as [Hr|[Hr|Hr]].
    + left. by rewrite Hr.
    + by right; left.
    + right. right. rewrite fmap_app, readProducts_stable in Hr. eauto.
Qed.

Lemma route_put_outcome e (key : string) req fs :
  (∃ i old p,
     list_find (has_key (JStr key)) (readProducts fs) = Some (i, old) ∧
     (route_put e key req fs).2 = {| res_status := 200; res_json := Product p |} ∧
     trackingNumber p = JStr key ∧
     (route_put e key req fs).1 !! productsFile
       = Some (File (Json (<[i := p]> (readProducts fs))))) ∨
  (res_status (route_put e key req fs).2 = 404 ∨
   res_status (route_put e key req fs).2 = 500).
Proof.
  unfold route_put, with_upload.
  pose proof (upload_single_lookup (req_file req) fs) as Hl.
  pose proof (upload_single_readProducts (req_file req) fs) as Hrd.
  destruct (upload_single _ _) as [fs1 [err|stored]]; simpl in *; [by auto|].
  unfold put_handler. cbv zeta. rewrite Hrd.
  destruct (list_find _ _) as [[i old]|] eqn:Hfind; [|by auto].
  destruct (writeProducts _ _ _) as [fs' []] eqn:Hw; simpl; [|by auto].
  left. eexists i, old, _. split; [done|]. split; [done|].
  split; [by apply find_key_Some in Hfind as [_ ?]|].
  apply writeProducts_true in Hw as [_ ->]. by rewrite lookup_insert_eq.
Qed.

Lemma delete_handler_outcome e (key : string) fs :
  (∃ i old,
     list_find (has_key (JStr key)) (readProducts fs) = Some (i, old) ∧
     (delete_handler e key fs).2
       = {| res_status := 200; res_json := Message "Product deleted successfully" |} ∧
     (delete_handler e key fs).1 !! productsFile
       = Some (File (Json (delete i (readProducts fs))))) ∨
  (res_status (delete_handler e key fs).2 = 404 ∨
   res_status (delete_handler e key fs).2 = 500).
Proof.
  unfold delete_handler. cbv zeta.
  destruct (list_find _ _) as [[i old]|] eqn:Hfind; [|by auto].
  destruct (cleanup_image _ _) as [fs1|]; [|by auto].
  destruct (writeProducts _ _ _) as [fs' []] eqn:Hw; simpl; [|by auto].
  left. exists i, old. split; [done|]. split; [done|].
  apply writeProducts_true in Hw as [_ ->]. by rewrite lookup_insert_eq.
Qed.

Lemma readProducts_Json fs ps :
  fs !! productsFile = Some (File (Json ps)) → readProducts fs = json_product <$> ps.
Proof. unfold readProducts. by intros ->. Qed.

Lemma strict_eq_json (v : jsval number) (k : string) :
  strict_eq (json_val v) (JStr k) = strict_eq v (JStr k).
Proof.
  destruct v as [| |b|x|s|l|l]; try done. simpl. by destruct (jsonNumber x).
Qed.

Lemma find_key_json (k : string) ps i p :
  ps !! i = Some p → trackingNumber p = JStr k →
  (∀ j q, ps !! j = Some q → j < i → trackingNumber q ≠ JStr k) →
  list_find (has_key (JStr k)) (json_product <$> ps) = Some (i, json_product p).
Proof.
  intros Hi Hk Hlt. apply list_find_Some. split; [|split].
  - by rewrite list_lookup_fmap, Hi.
  - unfold has_key. simpl. rewrite strict_eq_json, Hk. by apply strict_eq_str.
  - intros j q. rewrite list_lookup_fmap.
    destruct (ps !! j) as [q0|] eqn:Hj; [|done]. intros [= <-] Hji.
    unfold has_key. simpl. rewrite strict_eq_json. intros Hq%strict_eq_str.
    by apply (Hlt j q0).
Qed.

(** ** Insert and lookup *)


(** X5. The answer of an insert tells what happened to the collection:
    the status is 201, 400 or 500.  On 201 the answer carries a record
    whose key no stored record's key is strictly equal to, and the
    collection is the former one followed by that record.  On 400
    [products.json] is what it was.  On 500 the collection is the former
    one, or is empty, or is the former one followed by a record. *)
Theorem insert_answer_tells_store e req fs :
  (res_status (route_post e req fs).2 = 201 ∨
   res_status (route_post e req fs).2 = 400 ∨
   res_status (route_post e req fs).2 = 500) ∧
  (res_status (route_post e req fs).2 = 201 →
   ∃ p, res_json (route_post e req fs).2 = Product p ∧
        (∀ q, q ∈ readProducts fs →
              strict_eq (trackingNumber q) (trackingNumber p) = false) ∧
        readProducts (route_post e req fs).1
          = json_product <$> (readProducts fs ++ [p])%list) ∧
  (res_status (route_post e req fs).2 = 400 →
   (route_post e req fs).1 !! productsFile = fs !! productsFile) ∧
  (res_status (route_post e req fs).2 = 500 →
   readProducts (route_post e req fs).1 = readProducts fs ∨
   readProducts (route_post e req fs).1 = [] ∨
   ∃ p, readProducts (route_post e req fs).1 = (readProducts fs ++ [p])%list).
Proof.
  destruct (route_post_outcome e req fs)
    as [(p & Hp & Hfresh & Hl)|[[Hst Hl]|[Hst Hr]]].
  - rewrite Hp. simpl. split; [by left|]. split; [|by split].
    intros _. exists p. split; [done|]. split; [done|]. by apply readProducts_Json.
  - rewrite Hst. split; [by right; left|]. split; [done|]. by split.
  - rewrite Hst. split; [by right; right|]. split; [done|]. by split.
Qed.

(** ** Update *)

(** X6. An update answered 200 with a record changes the collection at
    one position only, the first one with the key of the request: the
    collection keeps its length, every other position holds the record it
    held, and a lookup by the key now answers that record as JSON carries
    it. *)
Theorem update_touches_one_record e (key : string) req fs p :
  (route_put e key req fs).2 = {| res_status := 200; res_json := Product p |} →
  ∃ i old,
    list_find (has_key (JStr key)) (readProducts fs) = Some (i, old) ∧
    length (readProducts (route_put e key req fs).1) = length (readProducts fs) ∧
    (∀ j, j ≠ i →
       readProducts (route_put e key req fs).1 !! j = readProducts fs !! j) ∧
    (get_product key (route_put e key req fs).1).2
      = {| res_status := 200; res_json := Product (json_product p) |}.
Proof.
  intros Hres.
  destruct (route_put_outcome e key req fs)
    as [(i & old & p0 & Hfind & Hp0 & Hk & Hl)|[Hst|Hst]];
    [|rewrite Hres in Hst; discriminate..].
  rewrite Hres in Hp0. injection Hp0 as <-.
  apply readProducts_Json in Hl. exists i, old. split; [done|].
  rewrite Hl. split; [by rewrite length_fmap, length_insert|]. split.
  - intros j Hj. rewrite list_lookup_fmap, list_lookup_insert_ne by done.
    by rewrite <- list_lookup_fmap, readProducts_stable.
  - unfold get_product. rewrite Hl.
    apply list_find_Some in Hfind as (Hi & _ & Hlt).
    rewrite (find_key_json key _ i p); [done|..].
    + apply list_lookup_insert_eq. by eapply lookup_lt_Some.
    + done.
    + intros j q Hj Hji Hq. rewrite list_lookup_insert_ne in Hj by lia.
      apply (Hlt j q Hj Hji). by apply strict_eq_str.
Qed.

(** ** Delete *)

Lemma delete_keeps_others {A} (l : list A) i x y :
  l !! i = Some x → y ≠ x → (y ∈ delete i l ↔ y ∈ l).
Proof.
  intros Hi Hne. rewrite delete_take_drop.
  rewrite <- (take_drop_middle l i x Hi) at 3.
  rewrite !elem_of_app, elem_of_cons. tauto.
Qed.

Lemma delete_NoDup_gone {A} (l : list A) i x :
  NoDup l → l !! i = Some x → x ∉ delete i l.
Proof.
  intros Hnd Hi. rewrite delete_take_drop.
  rewrite <- (take_drop_middle l i x Hi) in Hnd.
  apply NoDup_app in Hnd as (_ & Hleft & Hright).
  apply NoDup_cons in Hright as [Hright _].
  intros [Hin|Hin]%elem_of_app; [|done].
  apply (Hleft x Hin). left.
Qed.

Lemma keys_deleted fs fs1 i :
  keys (<[productsFile := File (Json (delete i (readProducts fs)))]> fs1)
  = delete i (keys fs).
Proof.
  rewrite keys_written, !list_fmap_delete.
  change (trackingNumber <$> readProducts fs) with (keys fs).
  by rewrite keys_stable.
Qed.

(** X7. After a delete answered 200 the collection is one record shorter,
    a key other than the deleted one is stored exactly when it was stored
    before, and, when no two stored records shared a key, a lookup by the
    deleted key answers 404. *)
Theorem delete_then_lookup e (key : string) fs :
  res_status (delete_handler e key fs).2 = 200 →
  S (length (readProducts (delete_handler e key fs).1)) = length (readProducts fs) ∧
  (∀ k, k ≠ JStr key → (k ∈ keys (delete_handler e key fs).1 ↔ k ∈ keys fs)) ∧
  (NoDup (keys fs) →
   (get_product key (delete_handler e key fs).1).2
     = {| res_status := 404; res_json := Error "Product not found" |}).
Proof.
  intros Hres.
  destruct (delete_handler_outcome e key fs)
    as [(i & old & Hfind & _ & Hl)|[Hst|Hst]];
    [|rewrite Hres in Hst; discriminate..].
  assert (keys (delete_handler e key fs).1 = delete i (keys fs)) as Hkeys.
  { rewrite <- (keys_deleted fs (delete_handler e key fs).1 i).
    unfold keys. f_equal. apply readProducts_lookup.
    by rewrite Hl, lookup_insert_eq. }
  apply readProducts_Json in Hl.
  apply find_key_Some in Hfind as [Hi Hk].
  assert (keys fs !! i = Some (JStr key)) as Hki.
  { unfold keys. by rewrite list_lookup_fmap, Hi, <- Hk. }
  split; [|split].
  - rewrite Hl, length_fmap. rewrite length_delete; [|by eauto].
    apply lookup_lt_Some in Hi. lia.
  - intros k Hne. rewrite Hkeys. by apply delete_keeps_others with (JStr key).
  - intros Hnd. unfold get_product.
    destruct (list_find _ _) as [[j q]|] eqn:Hfind'; [|done].
    exfalso. assert (JStr key ∉ keys (delete_handler e key fs).1) as Hgone.
    { rewrite Hkeys. by apply delete_NoDup_gone. }
    apply Hgone. apply find_key_Some in Hfind' as [Hj Hq]. unfold keys.
    apply list_elem_of_fmap. exists q. split; [by symmetry|].
    apply list_elem_of_lookup. eauto.
Qed.

(** X8. The delete of a record without an image reference, or whose
    reference does not start with the managed prefix (an external URL,
    the placeholder), or whose image file is not on disk, unlinks nothing
    and does not throw: every path other than [products.json] is as it
    was, and the answer is 200 when the medium takes the write and 500
    "Failed to delete product" when it does not. *)
Theorem delete_skips_unmanaged_image e (key : string) fs i old :
  list_find (has_key (JStr key)) (readProducts fs) = Some (i, old) →
  truthy (packageImage old) = false
  ∨ (∃ image, packageImage old = JStr image
              ∧ (String.prefix "/uploads/" image = false
                 ∨ fs !! path_join __dirname image = None)) →
  (∀ q : path, q ≠ productsFile → (delete_handler e key fs).1 !! q = fs !! q) ∧
  (delete_handler e key fs).2
    = match disk e with
      | Accepts =>
          {| res_status := 200; res_json := Message "Product deleted successfully" |}
      | _ => {| res_status := 500; res_json := Error "Failed to delete product" |}
      end.
Proof.
  intros Hfind Hskip. unfold delete_handler.
  rewrite Hfind, (cleanup_image_skips _ _ Hskip). cbv zeta.
  pose proof (writeProducts_frame e (delete i (readProducts fs)) fs) as Hframe.
  pose proof (writeProducts_fault e (delete i (readProducts fs)) fs) as Hfault.
  pose proof (writeProducts_ok e (delete i (readProducts fs)) fs) as Hgood.
  destruct (writeProducts _ _ _) as [fs' ok]. simpl in Hframe, Hfault.
  assert (ok = true ∧ disk e = Accepts ∨ ok = false ∧ disk e ≠ Accepts)
    as [[-> Hd]|[-> Hd]].
  { destruct (disk e) eqn:Hd; [left|right..]; (split; [|done]).
    - specialize (Hgood eq_refl (found_not_dir _ _ _ _ Hfind)). congruence.
    - by apply Hfault.
    - by apply Hfault.
    - by apply Hfault. }
  - rewrite Hd. done.
  - split; [done|]. simpl. by destruct (disk e).
Qed.

(** ** Runs of requests *)

Lemma sublist_keys (l1 l2 : list (jsval number)) :
  l1 `sublist_of` l2 →
  Forall is_string l2 ∧ NoDup l2 → Forall is_string l1 ∧ NoDup l1.
Proof.
  intros Hsub [Hstr Hnd]. split; [|by eapply sublist_NoDup].
  rewrite Forall_forall in *. intros x Hx. apply Hstr.
  by apply (sublist_subseteq _ _ Hsub).
Qed.

Lemma route_put_keys e (key : string) req fs :
  keys (route_put e key req fs).1 `sublist_of` keys fs.
Proof.
  unfold route_put, with_upload.
  pose proof (upload_single_readProducts (req_file req) fs) as Hrd.
  assert (keys (upload_single (req_file req) fs).1 = keys fs) as Hk
    by (unfold keys; by rewrite Hrd).
  destruct (upload_single _ _) as [fs1 [err|stored]]; simpl in *.
  - by rewrite Hk.
  - rewrite <- Hk.
    destruct (put_handler_keys e key (req_body req) stored fs1) as [->|(w & _ & ->)];
      [done|apply sublist_nil_l].
Qed.

Lemma delete_handler_keys e (key : string) fs :
  keys (delete_handler e key fs).1 `sublist_of` keys fs.
Proof.
  unfold delete_handler. cbv zeta.
  destruct (list_find _ _) as [[i old]|]; [|done].
  destruct (cleanup_image _ _) as [fs1|] eqn:Hc; [|done].
  assert (keys fs1 `sublist_of` keys fs) as Hfs1.
  { unfold keys. destruct (cleanup_image_read _ _ _ Hc) as [->| ->];
      [done|apply sublist_nil_l]. }
  destruct (writeProducts _ _ _) as [fs' ok] eqn:Hw.
  assert (keys fs' `sublist_of` keys fs) as Hgoal; [|by destruct ok].
  destruct ok.
  - apply writeProducts_true in Hw as [_ ->]. rewrite keys_deleted.
    apply sublist_delete.
  - apply writeProducts_false in Hw as [->|[(w & _ & ->)|[_ ->]]].
    + done.
    + unfold keys. rewrite readProducts_cut. apply sublist_nil_l.
    + rewrite keys_deleted. apply sublist_delete.
Qed.

Lemma dispatch_keys c fs :
  string_keyed_call c →
  Forall is_string (keys fs) ∧ NoDup (keys fs) →
  Forall is_string (keys (dispatch c fs).1) ∧ NoDup (keys (dispatch c fs).1).
Proof.
  intros Hc Hinv. destruct c as [|key|e req|e key req|e key]; simpl; [done|..].
  - destruct (String.eqb key ""); [done|].
    unfold get_product. by destruct (list_find _ _) as [[i p]|].
  - destruct Hinv. by apply route_post_keys.
  - destruct (String.eqb key ""); [done|].
    by apply (sublist_keys _ _ (route_put_keys e key req fs)).
  - destruct (String.eqb key ""); [done|].
    by apply (sublist_keys _ _ (delete_handler_keys e key fs)).
Qed.

(** X9. Unique string keys are an invariant of the whole server: from a
    store whose keys are strings, no two of them the same, no run of
    requests to the five routes, in any order and with any outcome, whose
    inserts supply a string as key or no key, reaches a store with a key
    that is no string or with two records that share one. *)
Theorem run_keeps_keys_unique cs fs :
  Forall is_string (keys fs) → NoDup (keys fs) →
  Forall string_keyed_call cs →
  NoDup (keys (run cs fs)) ∧ Forall is_string (keys (run cs fs)).
Proof.
  revert fs. induction cs as [|c cs IH]; intros fs Hstr Hnd Hcs; [done|].
  apply Forall_cons in Hcs as [Hc Hcs].
  destruct (dispatch_keys c fs Hc (conj Hstr Hnd)) as [Hstr' Hnd'].
  by apply IH.
Qed.

Lemma upload_single_touches (f : option file) fs (q : path) :
  (∀ f0, f = Some f0 → q ≠ (destination ++ [filename (received f0) fs])%list) →
  (upload_single f fs).1 !! q = fs !! q.
Proof.
  intros Hq. unfold upload_single. destruct f as [f0|]; [|done].
  specialize (Hq f0 eq_refl). destruct (String.eqb _ _); [done|].
  destruct (fileFilter _); [|done].
  destruct (fs !! destination) as [[|c0]|]; try done.
  destruct (fs !! (destination ++ _)%list) as [[|c]|]; [done|..];
    destruct (_ <? _)%N; simpl;
    by rewrite ?lookup_insert_ne, ?lookup_delete_ne.
Qed.

(** X10. What a request can touch: the two GET routes leave the disk as it
    is; an insert or an update changes at most [products.json] and the
    file its upload is stored under; a delete changes at most
    [products.json] and the path the removed record's image resolves
    to. *)
Theorem routes_touch_two_paths fs :
  (get_products fs).1 = fs ∧
  (∀ key : string, (get_product key fs).1 = fs) ∧
  (∀ e req (q : path),
     q ≠ productsFile →
     (∀ f, req_file req = Some f →
           q ≠ (destination ++ [filename (received f) fs])%list) →
     (route_post e req fs).1 !! q = fs !! q) ∧
  (∀ e (key : string) req (q : path),
     q ≠ productsFile →
     (∀ f, req_file req = Some f →
           q ≠ (destination ++ [filename (received f) fs])%list) →
     (route_put e key req fs).1 !! q = fs !! q) ∧
  (∀ e (key : string) (q : path),
     q ≠ productsFile →
     (∀ i old image,
        list_find (has_key (JStr key)) (readProducts fs) = Some (i, old) →
        packageImage old = JStr image →
        q ≠ path_join __dirname image) →
     (delete_handler e key fs).1 !! q = fs !! q).
Proof.
  assert (∀ e ps fs1 (q : path), q ≠ productsFile →
            (writeProducts e ps fs1).1 !! q = fs1 !! q) as Hwrite.
  { intros e ps fs1 q Hq. by apply writeProducts_frame. }
  split; [done|]. split.
  { intros key. unfold get_product. by destruct (list_find _ _) as [[i p]|]. }
  split; [|split].
  - intros e req q Hq Hup.
    pose proof (upload_single_touches (req_file req) fs q Hup) as Hupload.
    unfold route_post, with_upload.
    destruct (upload_single _ _) as [fs1 [err|stored]]; simpl in *; [done|].
    unfold post_handler. cbv zeta. destruct (list_find _ _); [done|].
    match goal with
    | |- context [writeProducts ?e0 ?ps0 ?fs0] => specialize (Hwrite e0 ps0 fs0 q Hq)
    end.
    destruct (writeProducts _ _ _) as [fs' []]; simpl in *; congruence.
  - intros e key req q Hq Hup.
    pose proof (upload_single_touches (req_file req) fs q Hup) as Hupload.
    unfold route_put, with_upload.
    destruct (upload_single _ _) as [fs1 [err|stored]]; simpl in *; [done|].
    rewrite put_handler_frame by done. done.
  - intros e key q Hq Himg. unfold delete_handler. cbv zeta.
    destruct (list_find _ _) as [[i old]|]; [|done].
    specialize (Himg i old).
    destruct (cleanup_image _ _) as [fs1|] eqn:Hc; [|done].
    assert (fs1 !! q = fs !! q) as Hfs1.
    { apply cleanup_image_cases in Hc as [->|(image & Him & _ & _ & ->)]; [done|].
      rewrite lookup_delete_ne; [done|]. intros Heq. by eapply Himg. }
    match goal with
    | |- context [writeProducts ?e0 ?ps0 ?fs0] => specialize (Hwrite e0 ps0 fs0 q Hq)
    end.
    destruct (writeProducts _ _ _) as [fs' []]; simpl in *; congruence.
Qed.

(** ** Uploads *)

(** X11. An upload whose declared type does not start with ["image/"] is
    refused before the handler runs: the insert and the update it came
    with both answer 500 with "Only image files are allowed!", and the
    disk, collection and assets, is as it was.  The upload is a file part
    with a name, as the middleware takes none without. *)
Theorem rejected_upload_changes_nothing e (key : string) req f fs :
  req_file req = Some f →
  originalname (received f) ≠ "" →
  fileFilter f = false →
  route_post e req fs
    = (fs, {| res_status := 500; res_json := ErrorPage "Only image files are allowed!" |}) ∧
  route_put e key req fs
    = (fs, {| res_status := 500; res_json := ErrorPage "Only image files are allowed!" |}).
Proof.
  intros Hf Hname Hfilter.
  assert (upload_single (req_file req) fs = (fs, inl "Only image files are allowed!"))
    as Hup.
  { unfold upload_single. rewrite Hf.
    destruct (String.eqb_spec (originalname (received f)) ""); [done|].
    change (fileFilter (received f)) with (fileFilter f). by rewrite Hfilter. }
  unfold route_post, route_put, with_upload. by rewrite Hup.
Qed.

Lemma upload_single_accepts f fs :
  originalname (received f) ≠ "" →
  fileFilter f = true →
  (N.of_nat (String.length (buffer f)) <? fileSize)%N = true →
  fs !! destination = Some Dir →
  fs !! (destination ++ [filename (received f) fs])%list ≠ Some Dir →
  upload_single (Some f) fs
    = (<[(destination ++ [filename (received f) fs])%list := File (Blob (buffer f))]> fs,
       inr (Some (filename (received f) fs))).
Proof.
  intros Hname Hfilter Hsize Hdest Hdir. unfold upload_single.
  destruct (String.eqb_spec (originalname (received f)) ""); [done|].
  change (fileFilter (received f)) with (fileFilter f).
  change (buffer (received f)) with (buffer f).
  rewrite Hfilter, Hsize, Hdest.
  by destruct (fs !! (destination ++ _)%list) as [[|c]|].
Qed.

Lemma upload_single_stored f fs name :
  (upload_single f fs).2 = inr (Some name) →
  ∃ f0, f = Some f0 ∧ name = filename (received f0) fs ∧
        originalname (received f0) ≠ "" ∧
        fs !! destination = Some Dir ∧
        (upload_single f fs).1 !! (destination ++ [name])%list
          = Some (File (Blob (buffer f0))).
Proof.
  unfold upload_single. destruct f as [f0|]; [|done].
  destruct (String.eqb_spec (originalname (received f0)) ""); [done|].
  destruct (fileFilter _); [|done].
  destruct (fs !! destination) as [[|c0]|]; try done.
  destruct (fs !! (destination ++ _)%list) as [[|c]|]; [done|..];
    (destruct (_ <? _)%N; [|done]);
    simpl; intros [= <-]; exists f0; by rewrite lookup_insert_eq.
Qed.

(** X12. The name of an upload is taken from the number of stored records:
    two accepted uploads with the same extension, with no insert between
    them, get the same name, and the second replaces the first; the disk
    is the one the second upload alone would have left.  An upload is
    accepted when it has a name, an image type and less than 5 MiB, the
    destination is a directory and no directory is at its target. *)
Theorem uploads_collide f g fs :
  originalname (received f) ≠ "" → originalname (received g) ≠ "" →
  fileFilter f = true → fileFilter g = true →
  (N.of_nat (String.length (buffer f)) <? fileSize)%N = true →
  (N.of_nat (String.length (buffer g)) <? fileSize)%N = true →
  extname (originalname (received f)) = extname (originalname (received g)) →
  fs !! destination = Some Dir →
  fs !! (destination ++ [filename (received f) fs])%list ≠ Some Dir →
  (upload_single (Some f) fs).2 = inr (Some (filename (received f) fs)) ∧
  (upload_single (Some g) (upload_single (Some f) fs).1).2
    = inr (Some (filename (received f) fs)) ∧
  (upload_single (Some g) (upload_single (Some f) fs).1).1
     !! (destination ++ [filename (received f) fs])%list
    = Some (File (Blob (buffer g))) ∧
  (upload_single (Some g) (upload_single (Some f) fs).1).1
    = (upload_single (Some g) fs).1.
Proof.
  intros Hnf Hng Hf Hg Hsf Hsg Hext Hdest Hdir.
  set (target := (destination ++ [filename (received f) fs])%list) in *.
  assert (∀ fs', readProducts fs' = readProducts fs →
                 filename (received g) fs' = filename (received f) fs) as Hname.
  { intros fs' Hrd. unfold filename. by rewrite Hrd, Hext. }
  assert (target ≠ destination) as Htd.
  { unfold target. intros Heq%(f_equal length). rewrite length_app in Heq.
    simpl in Heq. lia. }
  pose proof (upload_single_accepts f fs Hnf Hf Hsf Hdest Hdir) as Hu1.
  fold target in Hu1.
  assert (filename (received g) (<[target := File (Blob (buffer f))]> fs)
          = filename (received f) fs) as Hg1.
  { apply Hname, readProducts_lookup. rewrite lookup_insert_ne; [done|].
    apply upload_target_ne. }
  assert (upload_single (Some g) (<[target := File (Blob (buffer f))]> fs)
          = (<[target := File (Blob (buffer g))]>
               (<[target := File (Blob (buffer f))]> fs),
             inr (Some (filename (received f) fs)))) as Hu2.
  { rewrite upload_single_accepts; try done.
    - by rewrite Hg1.
    - by rewrite lookup_insert_ne.
    - rewrite Hg1. fold target. by rewrite lookup_insert_eq. }
  assert (upload_single (Some g) fs
          = (<[target := File (Blob (buffer g))]> fs,
             inr (Some (filename (received f) fs)))) as Hu3.
  { rewrite upload_single_accepts; try done.
    - by rewrite (Hname fs eq_refl).
    - by rewrite (Hname fs eq_refl). }
  rewrite Hu1. cbn [fst snd]. rewrite Hu2, Hu3. cbn [fst snd].
  by rewrite lookup_insert_eq, insert_insert_eq.
Qed.


(** ** The name of an upload and the reference to it *)

Lemma chars_append (a b : string) :
  String.list_ascii_of_string (a +:+ b)
  = (String.list_ascii_of_string a ++ String.list_ascii_of_string b)%list.
Proof.
  induction a as [|c a IH]; [done|]. rewrite append_cons. simpl. by rewrite IH.
Qed.

Lemma append_assoc (a b c : string) : (a +:+ b) +:+ c = a +:+ (b +:+ c).
Proof.
  induction a as [|x a IH]; [done|]. rewrite !append_cons. by rewrite IH.
Qed.

Lemma pretty_N_char_plain (x : N) : pretty_N_char x ≠ "/"%char.
Proof. unfold pretty_N_char. by repeat case_match. Qed.

Lemma pretty_N_go_plain (x : N) (s : string) :
  "/"%char ∉ String.list_ascii_of_string s →
  "/"%char ∉ String.list_ascii_of_string (pretty_N_go x s).
Proof.
  revert s. induction (N.lt_wf_0 x) as [x _ IH]; intros s Hs.
  assert (x = 0 ∨ 0 < x)%N as [->|Hpos] by lia; [by rewrite pretty_N_go_0|].
  rewrite pretty_N_go_step by done. apply IH; [by apply N.div_lt|].
  simpl. intros [Heq|Hin]%elem_of_cons; [|done].
  by apply (pretty_N_char_plain (x `mod` 10)%N).
Qed.

Lemma pretty_nat_plain (n : nat) :
  "/"%char ∉ String.list_ascii_of_string (pretty n).
Proof.
  unfold pretty, pretty_nat, pretty, pretty_N. case_decide.
  - simpl. by intros [?|?%elem_of_nil]%elem_of_cons.
  - apply pretty_N_go_plain. apply not_elem_of_nil.
Qed.

Lemma filename_plain (f : file) fs :
  "/"%char ∉ String.list_ascii_of_string (filename f fs).
Proof.
  unfold filename. rewrite !chars_append, !elem_of_app.
  intros [Hin|[Hin|Hin]].
  - simpl in Hin. repeat (apply elem_of_cons in Hin as [?|Hin]; [done|]).
    by apply elem_of_nil in Hin.
  - by apply pretty_nat_plain in Hin.
  - by apply extname_plain in Hin.
Qed.

Lemma prefix_append (a b : string) : String.prefix a (a +:+ b) = true.
Proof.
  induction a as [|x a IH]; [rewrite append_nil; by destruct b|].
  rewrite append_cons. simpl. by destruct (ascii_dec x x).
Qed.

Lemma rev_app_snoc (s : string) (a : ascii) (acc : string) :
  String.rev_app (s +:+ String a "") acc = String a (String.rev_app s acc).
Proof.
  revert acc. induction s as [|b s IH]; intros acc; [done|].
  rewrite append_cons. simpl. by rewrite IH.
Qed.

Lemma string_snoc (s : string) :
  s ≠ "" →
  ∃ s' a, s = s' +:+ String a "" ∧ a ∈ String.list_ascii_of_string s.
Proof.
  induction s as [|b s IH]; [done|]. intros _.
  destruct s as [|c s].
  - exists "", b. split; [done|]. simpl. left.
  - destruct IH as (s' & a & Hs & Hin); [done|].
    exists (String b s'), a. split; [by rewrite append_cons, <- Hs|].
    simpl in *. by right.
Qed.

Lemma trailing_slash_plain (pre s : string) :
  s ≠ "" → "/"%char ∉ String.list_ascii_of_string s →
  trailing_slash (pre +:+ s) = false.
Proof.
  intros Hne Hno. destruct (string_snoc s Hne) as (s' & a & -> & Hin).
  unfold trailing_slash, String.rev.
  rewrite <- append_assoc, rev_app_snoc.
  destruct (Ascii.eqb_spec a "/") as [->|]; [done|done].
Qed.

Lemma upload_reference (f : file) fs :
  ("/"%char ∉ String.list_ascii_of_string (filename f fs)) ∧
  (destination ++ [filename f fs])%list ≠ productsFile ∧
  String.prefix "/uploads/" ("/uploads/" +:+ filename f fs) = true ∧
  trailing_slash ("/uploads/" +:+ filename f fs) = false ∧
  path_join __dirname ("/uploads/" +:+ filename f fs)
    = (uploadsDir ++ [filename f fs])%list.
Proof.
  pose proof (filename_plain f fs) as Hplain.
  destruct (filename_head f fs) as [rest Hi].
  split; [done|]. split; [apply upload_target_ne|]. split; [|split].
  - apply prefix_append.
  - apply trailing_slash_plain; [by rewrite Hi|done].
  - rewrite path_join_upload, uploadsDir_eq; [by rewrite <- app_assoc|done|..];
      by rewrite Hi.
Qed.

Lemma destination_uploadsDir : destination = uploadsDir ↔ cwd = __dirname.
Proof.
  rewrite destination_eq, uploadsDir_eq. split; [|by intros ->].
  by intros Heq%app_inv_tail.
Qed.

(** X14. The name given to an upload never has a path separator, whatever
    original name the client sent: the file lands directly in the
    destination, never on [products.json], and the reference
    ["/uploads/<name>"] the handlers store for it passes the prefix test
    of the cleanup, has no trailing separator and resolves to the file of
    that name in [uploads/] beside the script.  That is the file the
    upload was stored in exactly when the working directory is the
    directory of the script. *)
Theorem upload_reference_resolves (f : file) fs :
  ("/"%char ∉ String.list_ascii_of_string (filename f fs)) ∧
  (destination ++ [filename f fs])%list ≠ productsFile ∧
  String.prefix "/uploads/" ("/uploads/" +:+ filename f fs) = true ∧
  trailing_slash ("/uploads/" +:+ filename f fs) = false ∧
  path_join __dirname ("/uploads/" +:+ filename f fs)
    = (uploadsDir ++ [filename f fs])%list ∧
  (path_join __dirname ("/uploads/" +:+ filename f fs)
     = (destination ++ [filename f fs])%list
   ↔ cwd = __dirname).
Proof.
  pose proof (filename_plain f fs) as Hplain.
  destruct (filename_head f fs) as [rest Hi].
  assert (path_join __dirname ("/uploads/" +:+ filename f fs)
          = (uploadsDir ++ [filename f fs])%list) as Hjoin.
  { rewrite path_join_upload, uploadsDir_eq; [by rewrite <- app_assoc|done|..];
      by rewrite Hi. }
  split; [done|]. split; [apply upload_target_ne|]. split; [|split; [|split]].
  - apply prefix_append.
  - apply trailing_slash_plain; [by rewrite Hi|done].
  - done.
  - rewrite Hjoin, <- destination_uploadsDir. split; [|by intros ->].
    intros Heq%app_inv_tail. done.
Qed.

(** ** Upload, insert, delete *)

Lemma upload_single_some f fs :
  originalname (received f) ≠ "" → (upload_single (Some f) fs).2 ≠ inr None.
Proof.
  intros Hname. unfold upload_single.
  destruct (String.eqb_spec (originalname (received f)) ""); [done|].
  destruct (fileFilter _); [|done].
  destruct (fs !! destination) as [[|c0]|]; try done.
  destruct (fs !! (destination ++ _)%list) as [[|c]|]; [done|..];
    by destruct (_ <? _)%N.
Qed.

Lemma delete_last {A} (l : list A) (x : A) :
  delete (length l) (l ++ [x])%list = l.
Proof. by rewrite delete_middle, app_nil_r. Qed.

(** X15. An image uploaded with an insert goes with the record, when the
    server runs in the directory of the script.  When an insert with an
    upload is answered 201, the uploaded file is in the destination and
    the record refers to it by name; if the working directory is the
    directory of the script, a delete request for that record on a disk
    that takes the write then answers 200, the file is no longer on disk,
    and the stored keys are the ones from before the insert. *)
Theorem insert_upload_then_delete e e' req f fs p (k : string) :
  req_file req = Some f →
  originalname (received f) ≠ "" →
  (route_post e req fs).2 = {| res_status := 201; res_json := Product p |} →
  trackingNumber p = JStr k →
  k ≠ "" →
  disk e' = Accepts →
  is_file (destination ++ [filename (received f) fs])%list (route_post e req fs).1 ∧
  packageImage p = JStr ("/uploads/" +:+ filename (received f) fs) ∧
  (cwd = __dirname →
   (dispatch (DeleteProduct e' k) (route_post e req fs).1).2
     = {| res_status := 200; res_json := Message "Product deleted successfully" |} ∧
   (dispatch (DeleteProduct e' k) (route_post e req fs).1).1
      !! (destination ++ [filename (received f) fs])%list = None ∧
   keys (dispatch (DeleteProduct e' k) (route_post e req fs).1).1 = keys fs).
Proof.
  intros Hf Hname Hres Hk Hne Hok.
  destruct (upload_reference (received f) fs) as (_ & Hnp & Hpre & Hslash & Hjoin).
  set (name := filename (received f) fs) in *.
  assert (∃ fs1,
            route_post e req fs
              = (<[productsFile := File (Json (readProducts fs ++ [p])%list)]> fs1,
                 {| res_status := 201; res_json := Product p |}) ∧
            fs1 !! (destination ++ [name])%list = Some (File (Blob (buffer f))) ∧
            packageImage p = JStr ("/uploads/" +:+ name) ∧
            (∀ q, q ∈ readProducts fs →
                  strict_eq (trackingNumber q) (trackingNumber p) = false))
    as (fs1 & Hpost & Hfile & Himg & Hfresh).
  { revert Hres. unfold route_post, with_upload.
    pose proof (upload_single_readProducts (req_file req) fs) as Hrd.
    pose proof (upload_single_stored (req_file req) fs) as Hst.
    pose proof (upload_single_some f fs Hname) as Hsome. rewrite <- Hf in Hsome.
    destruct (upload_single _ _) as [fs1 [err|stored]]; simpl in *; [done|].
    unfold post_handler. cbv zeta. cbn [trackingNumber].
    destruct (list_find _ _) as [[i p0]|] eqn:Hfind; [done|].
    destruct (writeProducts _ _ _) as [fs' []] eqn:Hw; simpl; [|done].
    intros [= <-]. exists fs1. apply writeProducts_true in Hw as [_ ->].
    rewrite Hrd. split; [done|].
    rewrite Hrd in Hfind. pose proof (proj1 (absent_key _ _) Hfind) as Hfresh.
    destruct stored as [name'|].
    - destruct (Hst name' eq_refl) as (f0 & Hf0 & -> & _ & _ & Hl).
      rewrite Hf in Hf0. injection Hf0 as <-. done.
    - by destruct Hsome. }
  rewrite Hpost. cbn [fst snd].
  set (fs2 := <[productsFile := _]> fs1).
  assert (fs2 !! (destination ++ [name])%list = Some (File (Blob (buffer f))))
    as Hfile2 by (unfold fs2; by rewrite lookup_insert_ne).
  split; [by eexists|]. split; [done|]. intros Hcwd.
  apply destination_uploadsDir in Hcwd. rewrite <- Hcwd in Hjoin.
  assert (readProducts fs2 = json_product <$> (readProducts fs ++ [p])%list) as Hrd2
    by apply readProducts_written.
  assert (list_find (has_key (JStr k)) (readProducts fs2)
          = Some (length (readProducts fs), json_product p)) as Hfind.
  { rewrite Hrd2. apply find_key_json; [by rewrite lookup_app_r, Nat.sub_diag|done|].
    intros j q Hj Hlt Hq. rewrite lookup_app_l in Hj by done.
    assert (q ∈ readProducts fs) as Hin by (apply list_elem_of_lookup; eauto).
    specialize (Hfresh q Hin). rewrite Hq, Hk in Hfresh.
    assert (strict_eq (JStr k : jsval number) (JStr k) = true) as Heq
      by by apply strict_eq_str.
    congruence. }
  assert (cleanup_image (json_product p) fs2
          = Some (delete (destination ++ [name])%list fs2)) as Hclean.
  { rewrite <- Hjoin.
    apply (cleanup_image_unlinks (json_product p) fs2 _ (Blob (buffer f)));
      [by simpl; rewrite Himg|done|done|by rewrite Hjoin]. }
  simpl. destruct (String.eqb_spec k "") as [|_]; [done|].
  unfold delete_handler. rewrite Hfind, Hclean.
  rewrite writeProducts_ok; [|done|].
  2:{ rewrite lookup_delete_ne by done. unfold fs2. by rewrite lookup_insert_eq. }
  cbn [respond fst snd]. split; [done|]. split.
  - rewrite lookup_insert_ne by (intros Heq; by apply Hnp).
    apply lookup_delete_eq.
  - rewrite keys_deleted. unfold keys at 1. rewrite Hrd2, trackingNumber_json.
    rewrite !fmap_app. change (trackingNumber <$> readProducts fs) with (keys fs).
    rewrite keys_stable. simpl.
    assert (length (readProducts fs) = length (keys fs)) as ->
      by (unfold keys; by rewrite length_fmap).
    apply delete_last.
Qed.

(** ** The key of a created record *)

Lemma substring_length (n m : nat) (s : string) :
  String.length (String.substring n m s) = (m `min` (String.length s - n))%nat.
Proof.
  revert n m. induction s as [|c s IH]; intros [|n] [|m]; simpl; try lia.
  - rewrite (IH 0 m). lia.
  - apply IH.
  - apply IH.
Qed.

(** X16. The key of a created record is the supplied [trackingNumber],
    whatever its type, when one is supplied and truthy; otherwise it is
    the string cut from the random number: its characters are the up to
    ten characters that follow the first two of the number's text, and
    nothing more. *)
Theorem created_key e body stored fs code p :
  (post_handler e body stored fs).2 = {| res_status := code; res_json := Product p |} →
  (truthy (body_trackingNumber body) = true →
   trackingNumber p = body_trackingNumber body) ∧
  (truthy (body_trackingNumber body) = false →
   ∃ k, trackingNumber p = JStr k ∧
        String.length k = (10 `min` (String.length (random e) - 2))%nat ∧
        ∀ i, String.get i k
             = if decide (i < 10)%nat then String.get (i + 2) (random e) else None).
Proof.
  unfold post_handler. cbv zeta. cbn [trackingNumber].
  destruct (list_find _ _); [by inversion 1|].
  assert (∀ i, String.get i (String.substring 2 10 (random e))
               = if decide (i < 10)%nat then String.get (i + 2) (random e) else None)
    as Hget.
  { intros i. case_decide.
    - by apply String.substring_correct1.
    - apply String.substring_correct2. lia. }
  destruct (writeProducts _ _ _) as [fs1 []]; inversion 1; subst; simpl; split.
  - intros Ht. unfold js_or. by rewrite Ht.
  - intros Hblank. unfold js_or. rewrite Hblank. eexists. split; [done|].
    split; [apply substring_length|done].
Qed.

(** ** More on uploads *)

Lemma chars_inj (a b : string) :
  String.list_ascii_of_string a = String.list_ascii_of_string b → a = b.
Proof.
  intros Heq. rewrite <- (String.string_of_list_ascii_of_string a).
  rewrite <- (String.string_of_list_ascii_of_string b). by rewrite Heq.
Qed.

Lemma append_inj_r (a b c : string) : a +:+ c = b +:+ c → a = b.
Proof.
  intros Heq%(f_equal String.list_ascii_of_string).
  rewrite !chars_append in Heq. by apply app_inv_tail, chars_inj in Heq.
Qed.

(** X17. Uploads taken at different record counts never share a name: for
    two files with the same extension, the names differ as soon as the
    numbers of stored records differ, so an insert between two uploads
    keeps the second from replacing the first. *)
Theorem filename_distinct (f g : file) fs fs' :
  extname (originalname f) = extname (originalname g) →
  length (readProducts fs) ≠ length (readProducts fs') →
  filename f fs ≠ filename g fs' ∧
  (destination ++ [filename f fs])%list ≠ (destination ++ [filename g fs'])%list ∧
  (uploadsDir ++ [filename f fs])%list ≠ (uploadsDir ++ [filename g fs'])%list.
Proof.
  intros Hext Hlen.
  assert (filename f fs ≠ filename g fs') as Hne.
  { unfold filename. rewrite Hext. intros Heq%String.app_inj%append_inj_r.
    apply (inj pretty) in Heq. lia. }
  split; [done|]. split; intros Heq%app_inv_head; apply Hne; congruence.
Qed.

(** X18. An update with an upload that is answered 200 stores a reference
    by name: the returned record's [packageImage] is ["/uploads/<name>"]
    for the name the upload was given, the uploaded bytes are in the file
    of that name in the destination, and the reference resolves to that
    file when the working directory is the directory of the script. *)
Theorem update_upload_reference e (key : string) req f fs p :
  req_file req = Some f →
  originalname (received f) ≠ "" →
  (route_put e key req fs).2 = {| res_status := 200; res_json := Product p |} →
  packageImage p = JStr ("/uploads/" +:+ filename (received f) fs) ∧
  (route_put e key req fs).1 !! (destination ++ [filename (received f) fs])%list
    = Some (File (Blob (buffer f))) ∧
  (cwd = __dirname →
   (route_put e key req fs).1
      !! path_join __dirname ("/uploads/" +:+ filename (received f) fs)
     = Some (File (Blob (buffer f)))).
Proof.
  intros Hf Hname. unfold route_put, with_upload.
  destruct (upload_reference (received f) fs) as (_ & Hne & _ & _ & Hjoin).
  pose proof (upload_single_stored (req_file req) fs) as Hst.
  pose proof (upload_single_some f fs Hname) as Hsome. rewrite <- Hf in Hsome.
  destruct (upload_single _ _) as [fs1 [err|stored]]; simpl in *; [done|].
  destruct stored as [name|]; [|done].
  destruct (Hst name eq_refl) as (f0 & Hf0 & -> & _ & _ & Hl).
  rewrite Hf in Hf0. injection Hf0 as <-.
  unfold put_handler. cbv zeta. destruct (list_find _ _) as [[i old]|]; [|done].
  destruct (writeProducts _ _ _) as [fs' []] eqn:Hw; simpl; [|done].
  intros [= <-]. simpl. split; [done|].
  apply writeProducts_true in Hw as [_ ->].
  assert (∀ c, <[productsFile := c]> fs1
                 !! (destination ++ [filename (received f) fs])%list
               = Some (File (Blob (buffer f)))) as Hstored.
  { intros c. rewrite lookup_insert_ne; [done|]. intros Heq. by apply Hne. }
  split; [apply Hstored|].
  intros Hcwd%destination_uploadsDir. rewrite Hjoin, <- Hcwd. apply Hstored.
Qed.

(** ** Uploads that fail *)

Lemma filename_same_name (f g : file) fs :
  originalname f = originalname g → filename f fs = filename g fs.
Proof. unfold filename. by intros ->. Qed.

Lemma destination_ne_productsFile : destination ≠ productsFile.
Proof.
  rewrite destination_eq, productsFile_eq. intros [_ Heq]%app_inj_tail. discriminate.
Qed.

(** X19. Start-up makes [uploads/] beside the script, and uploads go to
    [uploads/] in the working directory.  When the two are different
    directories and the disk has nothing at the latter, then after
    start-up an insert or an update with an image upload is answered 500
    by the middleware and the disk is as start-up left it. *)
Theorem upload_needs_directory e (key : string) req f fs :
  req_file req = Some f →
  originalname (received f) ≠ "" →
  fileFilter f = true →
  cwd ≠ __dirname →
  fs !! destination = None →
  startup fs !! destination = None ∧
  route_post e req (startup fs)
    = (startup fs, {| res_status := 500; res_json := ErrorPage "ENOENT" |}) ∧
  route_put e key req (startup fs)
    = (startup fs, {| res_status := 500; res_json := ErrorPage "ENOENT" |}).
Proof.
  intros Hf Hname Hfilter Hcwd Hdest.
  assert (startup fs !! destination = None) as Hnone.
  { rewrite startup_lookup, Hdest.
    rewrite decide_False by (by rewrite destination_uploadsDir).
    rewrite decide_False by apply destination_ne_productsFile. done. }
  assert (upload_single (req_file req) (startup fs) = (startup fs, inl "ENOENT")) as Hup.
  { unfold upload_single. rewrite Hf.
    destruct (String.eqb_spec (originalname (received f)) ""); [done|].
    change (fileFilter (received f)) with (fileFilter f).
    by rewrite Hfilter, Hnone. }
  split; [done|]. unfold route_post, route_put, with_upload. by rewrite Hup.
Qed.

(** X20. An upload that reaches the size limit is refused, and what is at
    its target goes with it: the insert and the update it came with
    answer 500 with "File too large", and the disk is the one from before
    without the target of the upload, also when that was the image of a
    stored record; the stored collection is as it was. *)
Theorem oversized_upload_removes_target e (key : string) req f fs :
  req_file req = Some f →
  originalname (received f) ≠ "" →
  fileFilter f = true →
  (N.of_nat (String.length (buffer f)) <? fileSize)%N = false →
  fs !! destination = Some Dir →
  fs !! (destination ++ [filename (received f) fs])%list ≠ Some Dir →
  route_post e req fs
    = (delete (destination ++ [filename (received f) fs])%list fs,
       {| res_status := 500; res_json := ErrorPage "File too large" |}) ∧
  route_put e key req fs
    = (delete (destination ++ [filename (received f) fs])%list fs,
       {| res_status := 500; res_json := ErrorPage "File too large" |}) ∧
  readProducts (delete (destination ++ [filename (received f) fs])%list fs)
    = readProducts fs.
Proof.
  intros Hf Hname Hfilter Hsize Hdest Hdir.
  assert (upload_single (req_file req) fs
          = (delete (destination ++ [filename (received f) fs])%list fs,
             inl "File too large")) as Hup.
  { unfold upload_single. rewrite Hf.
    destruct (String.eqb_spec (originalname (received f)) ""); [done|].
    change (fileFilter (received f)) with (fileFilter f).
    change (buffer (received f)) with (buffer f).
    rewrite Hfilter, Hdest, Hsize.
    by destruct (fs !! (destination ++ _)%list) as [[|c]|]. }
  unfold route_post, route_put, with_upload. rewrite Hup.
  split; [done|]. split; [done|].
  apply readProducts_lookup. rewrite lookup_delete_ne; [done|].
  apply upload_target_ne.
Qed.

End Store.

(** * The further properties on the sample disks *)

Lemma image1_ne_productsFile : image1 ≠ productsFile.
Proof. intros Heq. vm_compute in Heq. discriminate. Qed.

Lemma server_js_ne_productsFile : server_js ≠ productsFile.
Proof. intros Heq. vm_compute in Heq. discriminate. Qed.

Lemma tn7_absent : JStr "TN7" ∉ keys disk1.
Proof.
  intros Hin. vm_compute in Hin. apply list_elem_of_singleton in Hin. discriminate.
Qed.

Lemma write_then_read_witness :
  (writeProducts env0 [tn1] disk0).2 = true ∧
  readProducts (writeProducts env0 [tn1] disk0).1 = json_product <$> [tn1] ∧
  (writeProducts env_break [] disk1).2 = false ∧
  readProducts (writeProducts env_break [] disk1).1 = [] ∧
  (writeProducts env_fault [] disk1).1 = disk1 ∧
  (writeProducts env0 [tn1] disk1).1 !! image1 = disk1 !! image1.
Proof.
  assert ((writeProducts env0 [tn1] disk0).2 = true) as Hok
    by (vm_compute; reflexivity).
  assert ((writeProducts env_break [] disk1).2 = false) as Hbreak
    by (vm_compute; reflexivity).
  assert ((writeProducts env_fault [] disk1).2 = false) as Hfault
    by (vm_compute; reflexivity).
  destruct (write_then_read env0 [tn1] disk0) as (Hread & _ & _).
  destruct (write_then_read env_break [] disk1) as (_ & Hcut & _).
  destruct (write_then_read env_fault [] disk1) as (_ & Hkeep & _).
  destruct (write_then_read env0 [tn1] disk1) as (_ & _ & Hframe).
  split; [exact Hok|]. split; [exact (Hread Hok)|]. split; [exact Hbreak|].
  split.
  { destruct (Hcut Hbreak) as (_ & _ & Hnil). apply (Hnil "[" eq_refl).
    vm_compute. discriminate. }
  split.
  { destruct (Hkeep Hfault) as (_ & Hsame & _). apply Hsame. by left. }
  exact (Hframe image1 image1_ne_productsFile).
Defined.

Lemma get_product_first_match_witness :
  (JStr "TN7" ∉ keys disk1) ∧
  (get_product "TN7" disk1).2
    = {| res_status := 404; res_json := Error "Product not found" |} ∧
  (get_product "TN1" disk1).2 = {| res_status := 200; res_json := Product tn1 |}.
Proof.
  destruct (get_product_first_match "TN7" disk1) as (_ & Habsent & _).
  destruct (get_product_first_match "TN1" disk1) as (_ & _ & Hfound).
  split; [exact tn7_absent|]. split; [exact (proj1 Habsent tn7_absent)|].
  apply Hfound. exists 0. split; [vm_compute; reflexivity|]. split; [reflexivity|].
  intros j q _ Hlt. inversion Hlt.
Defined.

Lemma startup_keeps_store_witness :
  startup disk1 !! image1 = Some (File (Blob "PNG-bytes")) ∧
  startup (∅ : filesystem decimal) !! (uploadsDir : path) = Some Dir ∧
  startup (∅ : filesystem decimal) !! (productsFile : path) = Some (File (Json [])) ∧
  startup disk_corrupt !! (productsFile : path) = Some (File (Blob "[{")) ∧
  readProducts (startup disk1) = readProducts disk1.
Proof.
  destruct (startup_keeps_store disk1) as (Hat1 & Hread & _).
  destruct (startup_keeps_store (∅ : filesystem decimal)) as (Hat0 & _ & _).
  destruct (startup_keeps_store disk_corrupt) as (Hatc & _ & _).
  split; [rewrite Hat1; vm_compute; reflexivity|].
  split; [rewrite Hat0; vm_compute; reflexivity|].
  split; [rewrite Hat0; vm_compute; reflexivity|].
  split; [rewrite Hatc; vm_compute; reflexivity|exact Hread].
Defined.


Lemma insert_answer_tells_store_witness :
  res_status (route_post env0 req_plain disk0).2 = 201 ∧
  (∃ p, res_json (route_post env0 req_plain disk0).2 = Product p ∧
        (∀ q, q ∈ readProducts disk0 →
              strict_eq (trackingNumber q) (trackingNumber p) = false) ∧
        readProducts (route_post env0 req_plain disk0).1
          = json_product <$> (readProducts disk0 ++ [p])%list) ∧
  res_status (route_post env0 req_tn1_png disk1).2 = 400 ∧
  (route_post env0 req_tn1_png disk1).1 !! productsFile = disk1 !! productsFile.
Proof.
  assert (res_status (route_post env0 req_plain disk0).2 = 201) as H201
    by (vm_compute; reflexivity).
  assert (res_status (route_post env0 req_tn1_png disk1).2 = 400) as H400
    by (vm_compute; reflexivity).
  destruct (insert_answer_tells_store env0 req_plain disk0) as (_ & Hcreated & _).
  destruct (insert_answer_tells_store env0 req_tn1_png disk1) as (_ & _ & Hkept & _).
  split; [exact H201|]. split; [exact (Hcreated H201)|].
  split; [exact H400|exact (Hkept H400)].
Defined.

Lemma update_touches_one_record_witness :
  (route_put env0 "TN1" req_delivered disk1).2
    = {| res_status := 200; res_json := Product (set_status (JStr "delivered") tn1) |} ∧
  ∃ i old,
    list_find (has_key (JStr "TN1")) (readProducts disk1) = Some (i, old) ∧
    length (readProducts (route_put env0 "TN1" req_delivered disk1).1)
      = length (readProducts disk1) ∧
    (∀ j, j ≠ i →
       readProducts (route_put env0 "TN1" req_delivered disk1).1 !! j
         = readProducts disk1 !! j) ∧
    (get_product "TN1" (route_put env0 "TN1" req_delivered disk1).1).2
      = {| res_status := 200;
           res_json := Product (json_product (set_status (JStr "delivered") tn1)) |}.
Proof.
  assert ((route_put env0 "TN1" req_delivered disk1).2
          = {| res_status := 200;
               res_json := Product (set_status (JStr "delivered") tn1) |}) as Hput
    by (vm_compute; reflexivity).
  split; [exact Hput|].
  exact (update_touches_one_record env0 "TN1" req_delivered disk1 _ Hput).
Defined.

Lemma delete_then_lookup_witness :
  res_status (delete_handler env0 "TN1" disk1).2 = 200 ∧
  NoDup (keys disk1) ∧
  (get_product "TN1" (delete_handler env0 "TN1" disk1).1).2
    = {| res_status := 404; res_json := Error "Product not found" |}.
Proof.
  assert (res_status (delete_handler env0 "TN1" disk1).2 = 200) as H200
    by (vm_compute; reflexivity).
  assert (NoDup (keys disk1)) as Hnd.
  { vm_compute. apply NoDup_singleton. }
  destruct (delete_then_lookup env0 "TN1" disk1 H200) as (_ & _ & Hgone).
  split; [exact H200|]. split; [exact Hnd|exact (Hgone Hnd)].
Defined.

Lemma delete_skips_unmanaged_image_witness :
  ∃ old,
    list_find (has_key (JStr "TN3")) (readProducts disk_placeholder) = Some (0, old) ∧
    (∃ image, packageImage old = JStr image
              ∧ String.prefix "/uploads/" image = false) ∧
    (delete_handler env0 "TN3" disk_placeholder).2
      = {| res_status := 200; res_json := Message "Product deleted successfully" |} ∧
    (delete_handler env_fault "TN3" disk_placeholder).2
      = {| res_status := 500; res_json := Error "Failed to delete product" |}.
Proof.
  eexists. split; [vm_compute; reflexivity|].
  split; [eexists; split; [reflexivity|vm_compute; reflexivity]|]. split.
  - eapply (delete_skips_unmanaged_image env0 "TN3" disk_placeholder 0).
    + vm_compute. reflexivity.
    + right. eexists. split; [reflexivity|]. left. vm_compute. reflexivity.
  - eapply (delete_skips_unmanaged_image env_fault "TN3" disk_placeholder 0).
    + vm_compute. reflexivity.
    + right. eexists. split; [reflexivity|]. left. vm_compute. reflexivity.
Defined.

Lemma run_keeps_keys_unique_witness :
  Forall is_string (keys disk0) ∧
  NoDup (keys disk0) ∧
  Forall string_keyed_call
    [ PostProduct env0 req_tn1_png;
      PostProduct env0 req_tn1_png;
      PutProduct env0 "TN1" req_delivered;
      GetProducts;
      DeleteProduct env_fault "TN1";
      PostProduct env_break req_plain;
      PostProduct env0 req_plain;
      GetProduct "TN1";
      DeleteProduct env0 "TN1" ] ∧
  NoDup (keys (run [ PostProduct env0 req_tn1_png;
                     PostProduct env0 req_tn1_png;
                     PutProduct env0 "TN1" req_delivered;
                     GetProducts;
                     DeleteProduct env_fault "TN1";
                     PostProduct env_break req_plain;
                     PostProduct env0 req_plain;
                     GetProduct "TN1";
                     DeleteProduct env0 "TN1" ] disk0)).
Proof.
  assert (Forall is_string (keys disk0)) as Hstr by (vm_compute; constructor).
  assert (NoDup (keys disk0)) as Hnd by (vm_compute; constructor).
  assert (string_keyed (env0, req_tn1_png)) as Hk1 by (left; by exists "TN1").
  assert (string_keyed (env0, req_plain)) as Hk2 by (by right).
  assert (string_keyed (env_break, req_plain)) as Hk3 by (by right).
  assert (Forall string_keyed_call
            [ PostProduct env0 req_tn1_png;
              PostProduct env0 req_tn1_png;
              PutProduct env0 "TN1" req_delivered;
              GetProducts;
              DeleteProduct env_fault "TN1";
              PostProduct env_break req_plain;
              PostProduct env0 req_plain;
              GetProduct "TN1";
              DeleteProduct env0 "TN1" ]) as Hcs.
  { repeat (apply Forall_cons_2; [first [exact Hk1|exact Hk2|exact Hk3|exact I]|]).
    apply Forall_nil_2. }
  split; [exact Hstr|]. split; [exact Hnd|]. split; [exact Hcs|].
  exact (proj1 (run_keeps_keys_unique _ disk0 Hstr Hnd Hcs)).
Defined.

Lemma routes_touch_two_paths_witness :
  server_js ≠ productsFile ∧
  (route_post env0 req_tn1_png disk_script).1 !! server_js = disk_script !! server_js ∧
  (route_put env0 "TN1" req_png disk_script).1 !! server_js = disk_script !! server_js ∧
  (delete_handler env0 "TN1" disk1).1 !! (uploadsDir : path) = disk1 !! uploadsDir.
Proof.
  destruct (routes_touch_two_paths disk_script) as (_ & _ & Hpost & Hput & _).
  destruct (routes_touch_two_paths disk1) as (_ & _ & _ & _ & Hdel).
  assert (∀ f, Some png = Some f →
               server_js ≠ (destination ++ [filename (received f) disk_script])%list)
    as Hup.
  { intros f [= <-] Heq. vm_compute in Heq. discriminate. }
  split; [exact server_js_ne_productsFile|].
  split; [exact (Hpost env0 req_tn1_png server_js server_js_ne_productsFile Hup)|].
  split; [exact (Hput env0 "TN1" req_png server_js server_js_ne_productsFile Hup)|].
  apply Hdel; [exact uploadsDir_ne_productsFile|].
  intros i old image Hfind Himg Heq.
  rewrite disk1_find in Hfind. injection Hfind as _ <-.
  injection Himg as <-. vm_compute in Heq. discriminate.
Defined.

Lemma rejected_upload_changes_nothing_witness :
  originalname (received pdf) ≠ "" ∧
  fileFilter pdf = false ∧
  route_post env0 req_pdf disk1
    = (disk1, {| res_status := 500;
                 res_json := ErrorPage "Only image files are allowed!" |}) ∧
  route_put env0 "TN1" req_pdf disk1
    = (disk1, {| res_status := 500;
                 res_json := ErrorPage "Only image files are allowed!" |}).
Proof.
  assert (originalname (received pdf) ≠ "") as Hname by (vm_compute; discriminate).
  split; [exact Hname|]. split; [reflexivity|].
  exact (rejected_upload_changes_nothing env0 "TN1" req_pdf pdf disk1
           eq_refl Hname eq_refl).
Defined.

Lemma uploads_collide_witness :
  extname (originalname (received png)) = extname (originalname (received png2)) ∧
  disk0 !! (destination : path) = Some Dir ∧
  (upload_single (Some png) disk0).2 = inr (Some (filename (received png) disk0)) ∧
  (upload_single (Some png2) (upload_single (Some png) disk0).1).2
    = inr (Some (filename (received png) disk0)) ∧
  (upload_single (Some png2) (upload_single (Some png) disk0).1).1
     !! (destination ++ [filename (received png) disk0])%list
    = Some (File (Blob (buffer png2))).
Proof.
  assert (extname (originalname (received png))
          = extname (originalname (received png2))) as Hext
    by (vm_compute; reflexivity).
  assert (disk0 !! (destination : path) = Some Dir) as Hdest
    by (vm_compute; reflexivity).
  split; [exact Hext|]. split; [exact Hdest|].
  destruct (uploads_collide png png2 disk0) as (H1 & H2 & H3 & _);
    [vm_compute; discriminate|vm_compute; discriminate|reflexivity|reflexivity|
     vm_compute; reflexivity|vm_compute; reflexivity|exact Hext|exact Hdest| |
     by repeat split].
  intros Hdir. vm_compute in Hdir. discriminate.
Defined.


Lemma insert_upload_then_delete_witness :
  (route_post env0 req_tn1_png disk0).2
    = {| res_status := 201; res_json := Product tn1 |} ∧
  (cwd : path) = __dirname ∧
  is_file (destination ++ [filename (received png) disk0])%list
    (route_post env0 req_tn1_png disk0).1 ∧
  (dispatch (DeleteProduct env0 "TN1") (route_post env0 req_tn1_png disk0).1).1
     !! (destination ++ [filename (received png) disk0])%list = None ∧
  keys (dispatch (DeleteProduct env0 "TN1") (route_post env0 req_tn1_png disk0).1).1
    = keys disk0.
Proof.
  assert ((route_post env0 req_tn1_png disk0).2
          = {| res_status := 201; res_json := Product tn1 |}) as Hpost
    by (vm_compute; reflexivity).
  assert (originalname (received png) ≠ "") as Hname by (vm_compute; discriminate).
  assert ("TN1" ≠ "") as Hkey by discriminate.
  destruct (insert_upload_then_delete env0 env0 req_tn1_png png disk0 tn1 "TN1"
              eq_refl Hname Hpost eq_refl Hkey eq_refl) as (Hfile & _ & Hdel).
  destruct (Hdel eq_refl) as (_ & Hgone & Hkeys).
  by repeat split.
Defined.

Lemma created_key_witness :
  (∃ p, (post_handler env0 (with_key array_key scenario_form) None disk0).2
          = {| res_status := 201; res_json := Product p |} ∧
        trackingNumber p = array_key) ∧
  (∃ p, (post_handler env0 scenario_form None disk0).2
          = {| res_status := 201; res_json := Product p |} ∧
        ∃ k, trackingNumber p = JStr k ∧ String.length k = 10 ∧
             String.get 0 k = Some "8"%char).
Proof.
  split.
  - eexists. split; [vm_compute; reflexivity|].
    refine (proj1 (created_key env0 (with_key array_key scenario_form) None disk0
                     201 _ _) eq_refl).
    vm_compute. reflexivity.
  - assert (∃ p0, (post_handler env0 scenario_form None disk0).2
                  = {| res_status := 201; res_json := Product p0 |}) as [p0 Hp0]
      by (eexists; vm_compute; reflexivity).
    exists p0. split; [exact Hp0|].
    destruct (proj2 (created_key env0 scenario_form None disk0 201 p0 Hp0) eq_refl)
      as (k & Hk & Hlen & Hget).
    exists k. split; [exact Hk|]. split; [exact Hlen|].
    rewrite (Hget 0). vm_compute. reflexivity.
Defined.

Lemma filename_distinct_witness :
  length (readProducts disk0) ≠ length (readProducts disk1) ∧
  filename (received png) disk0 ≠ filename (received png2) disk1.
Proof.
  assert (length (readProducts disk0) ≠ length (readProducts disk1)) as Hlen
    by (vm_compute; discriminate).
  split; [exact Hlen|].
  apply (filename_distinct (received png) (received png2) disk0 disk1);
    [vm_compute; reflexivity|exact Hlen].
Defined.

Lemma update_upload_reference_witness :
  ∃ p,
    (route_put env0 "TN1" req_png disk1).2
      = {| res_status := 200; res_json := Product p |} ∧
    packageImage p = JStr ("/uploads/" +:+ filename (received png) disk1) ∧
    (route_put env0 "TN1" req_png disk1).1
       !! path_join __dirname ("/uploads/" +:+ filename (received png) disk1)
      = Some (File (Blob (buffer png))).
Proof.
  assert (originalname (received png) ≠ "") as Hname by (vm_compute; discriminate).
  assert (∃ p0, (route_put env0 "TN1" req_png disk1).2
                = {| res_status := 200; res_json := Product p0 |}) as [p0 Hp0]
    by (eexists; vm_compute; reflexivity).
  exists p0. split; [exact Hp0|].
  destruct (update_upload_reference env0 "TN1" req_png png disk1 p0
              eq_refl Hname Hp0) as (Himg & _ & Hres).
  split; [exact Himg|exact (Hres eq_refl)].
Defined.

(** Started in [/home/app], the server has no [uploads/] to store into. *)
Lemma upload_needs_directory_witness :
  cwd (Runtime := elsewhere_runtime) ≠ __dirname (Runtime := elsewhere_runtime) ∧
  (∅ : filesystem decimal) !! destination (rt := elsewhere_runtime) = None ∧
  startup (rt := elsewhere_runtime) ∅ !! uploadsDir (rt := elsewhere_runtime)
    = Some Dir ∧
  route_post (rt := elsewhere_runtime) env0 req_png (startup (rt := elsewhere_runtime) ∅)
    = (startup (rt := elsewhere_runtime) ∅,
       {| res_status := 500; res_json := ErrorPage "ENOENT" |}).
Proof.
  assert (cwd (Runtime := elsewhere_runtime) ≠ __dirname (Runtime := elsewhere_runtime)) as Hcwd
    by discriminate.
  assert (originalname (received png) ≠ "") as Hname by (vm_compute; discriminate).
  split; [exact Hcwd|]. split; [apply lookup_empty|].
  split; [vm_compute; reflexivity|].
  exact (proj1 (proj2 (upload_needs_directory (rt := elsewhere_runtime) env0 "TN1"
                         req_png png ∅ eq_refl Hname eq_refl Hcwd (lookup_empty _)))).
Defined.

Lemma length_append (a b : string) :
  String.length (a +:+ b) = String.length a + String.length b.
Proof. induction a as [|c a IH]; [done|]. simpl. by rewrite IH. Qed.

Lemma length_doubled (k : nat) (s : string) :
  String.length (doubled k s) = 2 ^ k * String.length s.
Proof.
  revert s. induction k as [|k IH]; intros s; simpl; [lia|].
  rewrite IH, length_append. lia.
Qed.

Lemma big_over_limit :
  (N.of_nat (String.length (buffer big)) <? fileSize)%N = false.
Proof.
  unfold big, buffer. rewrite length_doubled.
  rewrite Nat2N.inj_mul, Nat2N.inj_pow. vm_compute. reflexivity.
Qed.

(** An update of ["TN1"] in [disk2] with an image over the limit: the
    record keeps its reference and the file is gone. *)
Lemma oversized_upload_removes_target_witness :
  (N.of_nat (String.length (buffer big)) <? fileSize)%N = false ∧
  disk2 !! (destination : path) = Some Dir ∧
  route_put env0 "TN1" req_big disk2
    = (delete (destination ++ [filename (received big) disk2])%list disk2,
       {| res_status := 500; res_json := ErrorPage "File too large" |}) ∧
  readProducts (delete (destination ++ [filename (received big) disk2])%list disk2)
    = readProducts disk2.
Proof.
  assert (disk2 !! (destination : path) = Some Dir) as Hdest
    by (vm_compute; reflexivity).
  assert (originalname (received big) ≠ "") as Hname by (lazy; discriminate).
  assert (filename (received big) disk2 = "image2.png") as Hfile.
  { rewrite (filename_same_name (received big)
               {| originalname := "big.png"; mimetype := ""; buffer := "" |}
               disk2 eq_refl).
    vm_compute. reflexivity. }
  split; [exact big_over_limit|]. split; [exact Hdest|].
  destruct (oversized_upload_removes_target env0 "TN1" req_big big disk2
              eq_refl Hname eq_refl big_over_limit Hdest) as (_ & Hput & Hread).
  - rewrite Hfile. vm_compute. discriminate.
  - split; [exact Hput|exact Hread].
Defined.
